(** * dev-quote-bot: the daily quote pipeline of [src/index.js]

    A shallow embedding of the bot's four functions ([buildPrompt],
    [generateQuote], [fetchClickUpContext], [postDailyQuote]) together with
    the JavaScript built-ins they lean on, followed by the properties the
    specification states about them.

    Conventions.
    - A JavaScript string is a [string] holding the UTF-8 bytes of its text
      (well-formed Unicode is assumed; UTF-8 is self-synchronising, so literal
      substring search agrees with the search over UTF-16 code units).
    - [undefined] is [None] in an [option]; [null] is the JSON value [JNull].
    - Every effect (HTTP call, timer, console line, Discord call) is an event
      of the run; what the outside world answers is read from a [world]. *)

From Stdlib Require Import String Ascii List ZArith NArith Lia Bool Arith.
From Stdlib Require Import DecimalString.
Import ListNotations.
Open Scope string_scope.
Set Warnings "-register-all".

(* ================================================================= *)
(** ** JavaScript built-ins *)

Module JS.

(** The line feed written [\n] in the source, and the double quote. *)
Definition LF : string := String "010"%char EmptyString.
Definition DQ : string := String "034"%char EmptyString.

(** *** Strings *)

Fixpoint drop (n : nat) (s : string) : string :=
  match n, s with
  | O, _ => s
  | S _, EmptyString => EmptyString
  | S k, String _ r => drop k r
  end.

Fixpoint rev_onto (s acc : string) : string :=
  match s with
  | EmptyString => acc
  | String c r => rev_onto r (String c acc)
  end.

Definition rev (s : string) : string := rev_onto s EmptyString.

(** [s.split(t)] for a non-empty separator: the pieces between successive
    matches of [t], found left to right, a match never overlapping the one
    before it.  [skip] counts the bytes of the current match still to pass. *)
Fixpoint split_go (t : string) (skip : nat) (acc : string) (s : string)
  : list string :=
  match s with
  | EmptyString => [acc]
  | String c r =>
      match skip with
      | S k => split_go t k acc r
      | O =>
          if String.prefix t s
          then acc :: split_go t (String.length t - 1) EmptyString r
          else split_go t 0 (acc ++ String c EmptyString) r
      end
  end.

(** With the empty separator [split] cuts between all code units. *)
Fixpoint units (s : string) : list string :=
  match s with
  | EmptyString => []
  | String c r => String c EmptyString :: units r
  end.

Definition split (t s : string) : list string :=
  match t with
  | EmptyString => units s
  | String _ _ => split_go t 0 EmptyString s
  end.

(** [xs.join(sep)] on an array of strings. *)
Definition join (sep : string) (xs : list string) : string :=
  String.concat sep xs.

(** *** White space, as [String.prototype.trim] and [Number] see it

    WhiteSpace and LineTerminator of ECMA-262: TAB, LF, VT, FF, CR, SP,
    U+00A0, U+1680, U+2000..U+200A, U+2028, U+2029, U+202F, U+205F, U+3000
    and U+FEFF, here in their UTF-8 encodings. *)
Definition ws1 (x : nat) : bool :=
  (((9 <=? x) && (x <=? 13)) || (x =? 32))%nat.

Definition ws2 (x y : nat) : bool := ((x =? 194) && (y =? 160))%nat.

Definition ws3 (x y z : nat) : bool :=
  (((x =? 225) && (y =? 154) && (z =? 128))
  || ((x =? 226) && (y =? 128)
        && (((128 <=? z) && (z <=? 138)) || (z =? 168) || (z =? 169) || (z =? 175)))
  || ((x =? 226) && (y =? 129) && (z =? 159))
  || ((x =? 227) && (y =? 128) && (z =? 128))
  || ((x =? 239) && (y =? 187) && (z =? 191)))%nat.

(** Number of bytes of the white-space character [s] starts with, 0 if none. *)
Definition ws_len (s : string) : nat :=
  match s with
  | String a (String b (String c _)) =>
      if ws1 (nat_of_ascii a) then 1
      else if ws2 (nat_of_ascii a) (nat_of_ascii b) then 2
      else if ws3 (nat_of_ascii a) (nat_of_ascii b) (nat_of_ascii c) then 3
      else 0
  | String a (String b EmptyString) =>
      if ws1 (nat_of_ascii a) then 1
      else if ws2 (nat_of_ascii a) (nat_of_ascii b) then 2
      else 0
  | String a EmptyString => if ws1 (nat_of_ascii a) then 1 else 0
  | EmptyString => 0
  end.

(** The same for the character [s] ends with, [s] given back to front. *)
Definition ws_len_rev (s : string) : nat :=
  match s with
  | String c (String b (String a _)) =>
      if ws1 (nat_of_ascii c) then 1
      else if ws2 (nat_of_ascii b) (nat_of_ascii c) then 2
      else if ws3 (nat_of_ascii a) (nat_of_ascii b) (nat_of_ascii c) then 3
      else 0
  | String c (String b EmptyString) =>
      if ws1 (nat_of_ascii c) then 1
      else if ws2 (nat_of_ascii b) (nat_of_ascii c) then 2
      else 0
  | String c EmptyString => if ws1 (nat_of_ascii c) then 1 else 0
  | EmptyString => 0
  end.

Fixpoint strip (len : string -> nat) (fuel : nat) (s : string) : string :=
  match fuel with
  | O => s
  | S fuel' =>
      match len s with
      | O => s
      | S k => strip len fuel' (drop (S k) s)
      end
  end.

Definition trimStart (s : string) : string :=
  strip ws_len (String.length s) s.

Definition trimEnd (s : string) : string :=
  rev (strip ws_len_rev (String.length s) (rev s)).

Definition trim (s : string) : string := trimEnd (trimStart s).

(** *** Values read from a JSON body

    A number is carried by the text [Number.prototype.toString] gives for it,
    which is all this program asks of one: its truth value ([0] and [-0] both
    print as 0) and its place in a template literal. *)
Inductive json : Type :=
| JNull
| JBool (b : bool)
| JNum (text : string)
| JStr (s : string)
| JArr (items : list json)
| JObj (fields : list (string * json)).

(** ToBoolean. *)
Definition truthy (v : json) : bool :=
  match v with
  | JNull => false
  | JBool b => b
  | JNum t => negb (t =? "0")
  | JStr s => negb (s =? "")
  | JArr _ | JObj _ => true
  end.

(** The fields of a parsed object, each key once. *)
Fixpoint lookup (k : string) (fields : list (string * json)) : option json :=
  match fields with
  | [] => None
  | (k', v) :: rest => if k =? k' then Some v else lookup k rest
  end.

(** [v.k] on a value that is neither [null] nor [undefined], for a key that
    no prototype defines (choices, message, content, error, tasks, name,
    status). *)
Definition prop (k : string) (v : json) : option json :=
  match v with
  | JObj fields => lookup k fields
  | _ => None
  end.

(** [o?.k] *)
Definition opt_prop (k : string) (o : option json) : option json :=
  match o with
  | None | Some JNull => None
  | Some v => prop k v
  end.

(** [o?.[0]]; on a string it is the first code unit, itself a string. *)
Definition opt_index0 (o : option json) : option json :=
  match o with
  | Some (JArr items) => List.hd_error items
  | Some (JObj fields) => lookup "0" fields
  | Some (JStr (String c _)) => Some (JStr (String c EmptyString))
  | _ => None
  end.

(** [o || d] *)
Definition or_else (o : option json) (d : json) : json :=
  match o with
  | Some v => if truthy v then v else d
  | None => d
  end.

Fixpoint all_some {A : Type} (xs : list (option A)) : option (list A) :=
  match xs with
  | [] => Some []
  | None :: _ => None
  | Some x :: rest =>
      match all_some rest with
      | Some ys => Some (x :: ys)
      | None => None
      end
  end.

(** ToString, as a template literal applies it; [None] is the TypeError of
    an object whose own [toString] field hides the inherited method. *)
Fixpoint to_string (v : json) : option string :=
  match v with
  | JNull => Some "null"
  | JBool true => Some "true"
  | JBool false => Some "false"
  | JNum t => Some t
  | JStr s => Some s
  | JArr items =>
      option_map (join ",")
        (all_some
           (map (fun x => match x with JNull => Some EmptyString | _ => to_string x end)
                items))
  | JObj fields =>
      match lookup "toString" fields with
      | Some _ => None
      | None => Some "[object Object]"
      end
  end.

(** *** Environment variables: a string or [undefined] *)

(** [o || d] *)
Definition str_or (o : option string) (d : string) : string :=
  match o with
  | Some s => if s =? "" then d else s
  | None => d
  end.

(** [o ?? d] *)
Definition nullish (o : option string) (d : string) : string :=
  match o with
  | Some s => s
  | None => d
  end.

(** [!!o] *)
Definition str_truthy (o : option string) : bool :=
  match o with
  | Some s => negb (s =? "")
  | None => false
  end.

(** [`${o}`] *)
Definition tmpl (o : option string) : string :=
  match o with
  | Some s => s
  | None => "undefined"
  end.

Definition dec_N (n : N) : string := NilZero.string_of_uint (N.to_uint n).
Definition dec_Z (z : Z) : string := NilZero.string_of_int (Z.to_int z).

(** *** Numbers read from text

    [Dec neg m e] is the real number (-1)^neg * m * 10^e a numeric string
    denotes; the double that [Number] returns is the one nearest to it. *)
Inductive number : Type :=
| NaN
| Infinity (neg : bool)
| Dec (neg : bool) (m : N) (e : Z).

Definition digit (base : N) (c : ascii) : option N :=
  let x := N_of_ascii c in
  let v := (if (48 <=? x) && (x <=? 57) then Some (x - 48)
            else if (97 <=? x) && (x <=? 102) then Some (x - 87)
            else if (65 <=? x) && (x <=? 70) then Some (x - 55)
            else None)%N in
  match v with
  | Some d => if (d <? base)%N then Some d else None
  | None => None
  end.

(** The longest run of digits [s] starts with, as a number and a count. *)
Fixpoint digits (base : N) (s : string) (acc : N) (n : nat) : N * nat * string :=
  match s with
  | EmptyString => (acc, n, s)
  | String c r =>
      match digit base c with
      | Some d => digits base r (acc * base + d)%N (S n)
      | None => (acc, n, s)
      end
  end.

(** NonDecimalIntegerLiteral: 0x, 0o, 0b and their capitals. *)
Definition non_decimal (s : string) : option N :=
  match s with
  | String "0" (String p r) =>
      let base :=
        (if (p =? "x") || (p =? "X") then 16
         else if (p =? "o") || (p =? "O") then 8
         else if (p =? "b") || (p =? "B") then 2 else 0)%char%N in
      match digits base r 0%N 0 with
      | (v, S _, EmptyString) => Some v
      | _ => None
      end
  | _ => None
  end.

(** ExponentPart, or nothing. *)
Definition exponent (s : string) : option Z :=
  match s with
  | EmptyString => Some 0%Z
  | String c r =>
      if ((c =? "e") || (c =? "E"))%char then
        let '(neg, r') :=
          match r with
          | String "+" r' => (false, r')
          | String "-" r' => (true, r')
          | _ => (false, r)
          end in
        match digits 10 r' 0%N 0 with
        | (v, S _, EmptyString) => Some (if neg then - Z.of_N v else Z.of_N v)%Z
        | _ => None
        end
      else None
  end.

(** StrUnsignedDecimalLiteral other than [Infinity]. *)
Definition unsigned_decimal (s : string) : option (N * Z) :=
  let '(ip, ni, r1) := digits 10 s 0%N 0 in
  let '(m, nf, r2) :=
    match r1 with
    | String "." r => digits 10 r ip 0
    | _ => (ip, 0, r1)
    end in
  match ni + nf with
  | O => None
  | S _ =>
      match exponent r2 with
      | Some e => Some (m, (e - Z.of_nat nf)%Z)
      | None => None
      end
  end.

(** [Number(s)] on a string: StringToNumber. *)
Definition Number (s : string) : number :=
  let t := trim s in
  match t with
  | EmptyString => Dec false 0 0
  | String c r =>
      match non_decimal t with
      | Some v => Dec false v 0
      | None =>
          let '(neg, u) :=
            (if c =? "+" then (false, r)
             else if c =? "-" then (true, r) else (false, t))%char in
          if u =? "Infinity" then Infinity neg
          else match unsigned_decimal u with
               | Some (m, e) => Dec neg m e
               | None => NaN
               end
      end
  end.

(** Whether the nearest double is a zero: the value is 0, or at most
    2^-1075, half of the least positive double (the tie goes to 0). *)
Definition is_zero (m : N) (e : Z) : bool :=
  ((Z.of_N m =? 0) || ((e <? 0) && (Z.of_N m * 2 ^ 1075 <=? 10 ^ (- e))))%Z.

(** ToBoolean of a number: false on NaN, +0 and -0. *)
Definition num_truthy (n : number) : bool :=
  match n with
  | NaN => false
  | Infinity _ => true
  | Dec _ m e => negb (is_zero m e)
  end.

(** [a || b] *)
Definition num_or (a b : number) : number :=
  if num_truthy a then a else b.

End JS.

(* ================================================================= *)
(** ** The outside world and the effects of a run *)

Module IO.
Import JS.

Inductive method : Type := GET | POST.

(** The object handed to [JSON.stringify] for a request body:
    [{ model, messages: [{ role: 'user', content: prompt }], temperature,
    max_tokens }] for the generation, [{ content }] for the webhook. *)
Inductive body : Type :=
| NoBody
| ChatBody (model prompt : string) (temperature max_tokens : number)
| ContentBody (content : string).

Record request : Type := {
  url : string;
  meth : method;
  headers : list (string * string);
  payload : body
}.

(** A response: its status, and its body when that parses as JSON. *)
Record response : Type := {
  status : N;
  parsed : option json
}.

(** [res.ok] *)
Definition ok (res : response) : bool :=
  ((200 <=? status res) && (status res <=? 299))%N.

Inductive fetched : Type :=
| Rejects
| Resolves (res : response).

(** A Discord channel: its [type], and whether [send] goes through. *)
Record channel : Type := {
  ctype : N;
  accepts : string -> bool
}.

(** [ChannelType.GuildText] *)
Definition GuildText : N := 0.

Inductive resolved : Type :=
| FetchRejects
| FetchResolves (c : option channel).

Record world : Type := {
  env : string -> option string;            (* process.env *)
  now : Z;                                  (* Date.now() *)
  http : nat -> request -> fetched;         (* the answer to the n-th fetch *)
  channels : option string -> resolved      (* client.channels.fetch(id) *)
}.

Inductive exn : Type :=
| FetchFailed
| SyntaxError
| TypeError
| DiscordAPIError.

Inductive level : Type := Info | Warn | Error.

Inductive arg : Type :=
| AStr (s : string)
| AVal (v : json)
| AExn (e : exn).

Inductive event : Type :=
| EvFetch (r : request)
| EvDelay (ms : N)
| EvConsole (l : level) (args : list arg)
| EvChannelFetch (id : option string)
| EvSend (text : string).

Inductive result (A : Type) : Type :=
| Ok (a : A)
| Throw (e : exn).
Arguments Ok {A} a.
Arguments Throw {A} e.

(** An async computation, started after [n] fetches of the run: it ends with
    a value or a thrown exception, the events it caused in their order, and
    the number of fetches made by then. *)
Definition M (A : Type) : Type := nat -> result A * list event * nat.

Definition ret {A : Type} (a : A) : M A := fun n => (Ok a, [], n).

Definition throw {A : Type} (e : exn) : M A := fun n => (Throw e, [], n).

Definition bind {A B : Type} (m : M A) (k : A -> M B) : M B :=
  fun n =>
    match m n with
    | (Ok a, evs, n') =>
        let '(r, evs', n'') := k a n' in (r, (evs ++ evs')%list, n'')
    | (Throw e, evs, n') => (Throw e, evs, n')
    end.

(** [try { m } catch (e) { h e }], and [p.catch(h)] alike. *)
Definition try_catch {A : Type} (m : M A) (h : exn -> M A) : M A :=
  fun n =>
    match m n with
    | (Ok a, evs, n') => (Ok a, evs, n')
    | (Throw e, evs, n') =>
        let '(r, evs', n'') := h e n' in (r, (evs ++ evs')%list, n'')
    end.

Definition emit (ev : event) : M unit := fun n => (Ok tt, [ev], n).

Definition lift {A : Type} (o : option A) (e : exn) : M A :=
  match o with
  | Some a => ret a
  | None => throw e
  end.

Declare Scope io_scope.
Delimit Scope io_scope with io.
Notation "x <- m ;; k" := (bind m (fun x => k))
  (at level 61, m at next level, right associativity) : io_scope.
Notation "m ;; k" := (bind m (fun _ => k))
  (at level 61, right associativity) : io_scope.
Open Scope io_scope.

Fixpoint mapM {A B : Type} (f : A -> M B) (xs : list A) : M (list B) :=
  match xs with
  | [] => ret []
  | x :: rest => y <- f x ;; ys <- mapM f rest ;; ret (y :: ys)
  end.

(** [await fetch(url, init)] *)
Definition fetch (w : world) (r : request) : M response :=
  fun n =>
    match http w n r with
    | Rejects => (Throw FetchFailed, [EvFetch r], S n)
    | Resolves res => (Ok res, [EvFetch r], S n)
    end.

(** [await res.json()] *)
Definition json_of (res : response) : M json := lift (parsed res) SyntaxError.

(** [console.log], [console.warn], [console.error] *)
Definition console (l : level) (args : list arg) : M unit :=
  emit (EvConsole l args).

(** [await delay(ms)], index.js line 26. *)
Definition delay (ms : N) : M unit := emit (EvDelay ms).

(** [await client.channels.fetch(id)] *)
Definition channels_fetch (w : world) (id : option string) : M (option channel) :=
  emit (EvChannelFetch id) ;;
  match channels w id with
  | FetchRejects => throw DiscordAPIError
  | FetchResolves c => ret c
  end.

(** [await channel.send(text)] *)
Definition send (c : channel) (text : string) : M unit :=
  emit (EvSend text) ;;
  if accepts c text then ret tt else throw DiscordAPIError.

Definition value {A : Type} (x : result A * list event * nat) : result A :=
  fst (fst x).

Definition events {A : Type} (x : result A * list event * nat) : list event :=
  snd (fst x).

(** What a computation does when it opens the run. *)
Definition run {A : Type} (m : M A) : result A * list event :=
  let '(r, evs, _) := m 0 in (r, evs).

End IO.

(* ================================================================= *)
(** ** The bot *)

Module Bot.
Import JS IO.

(** [buildPrompt(contextLines = [])], index.js lines 52-55. *)
Definition buildPrompt (contextLines : list string) : string :=
  let ctx :=
    match contextLines with
    | [] => EmptyString
    | _ :: _ =>
        "Context:" ++ LF ++ "- " ++ join (LF ++ "- ") contextLines ++ LF
    end in
  LF ++ "You are a friendly CTO sending a single short motivational quote to a small dev team shipping products in Myanmar." ++ LF
  ++ ctx ++ "Requirements:" ++ LF
  ++ "- 1–2 sentences MAX, punchy." ++ LF
  ++ "- Focus on engineering momentum, code quality, learning, teamwork, shipping." ++ LF
  ++ "- Avoid clichés; be concrete." ++ LF
  ++ "- If LANGUAGE=EN -> English only." ++ LF
  ++ "- If LANGUAGE=MM -> Myanmar (Burmese) only." ++ LF
  ++ "- If LANGUAGE=EN_MM -> Give English line then Myanmar line on the next line." ++ LF
  ++ LF ++ "Return ONLY the quote text. No extra commentary.".

(** *** Configuration, index.js lines 6-25 *)

Definition DISCORD_CHANNEL_ID (w : world) : option string := env w "DISCORD_CHANNEL_ID".
Definition DISCORD_WEBHOOK_URL (w : world) : option string := env w "DISCORD_WEBHOOK_URL".
Definition AI_MODEL (w : world) : option string := env w "AI_MODEL".
Definition AI_API_URL (w : world) : option string := env w "AI_API_URL".
Definition AI_API_KEY (w : world) : option string := env w "AI_API_KEY".
Definition AI_MAX_TOKENS (w : world) : option string := env w "AI_MAX_TOKENS".
Definition AI_TEMPERATURE (w : world) : option string := env w "AI_TEMPERATURE".

(** [LANGUAGE = 'EN_MM'] in the destructuring: the default of an unset
    variable. *)
Definition LANGUAGE (w : world) : string := nullish (env w "LANGUAGE") "EN_MM".

Definition USE_WEBHOOK (w : world) : bool := str_truthy (DISCORD_WEBHOOK_URL w).

(** *** [generateQuote], index.js lines 57-107 *)

Definition endpoint (w : world) : string :=
  str_or (AI_API_URL w) "https://openrouter.ai/api/v1/chat/completions".

Definition model (w : world) : string :=
  str_or (AI_MODEL w) "qwen/qwen3-coder:free".

Definition maxTokens (w : world) : number :=
  num_or (Number (nullish (AI_MAX_TOKENS w) "")) (Dec false 120 0).

Definition temperature (w : world) : number :=
  num_or (Number (nullish (AI_TEMPERATURE w) "")) (Dec false 8 (-1)).

Definition gen_headers (w : world) : list (string * string) :=
  [ ("Authorization", "Bearer " ++ tmpl (AI_API_KEY w));
    ("Content-Type", "application/json");
    ("Accept", "application/json") ].

(** The request of lines 77-81. *)
Definition gen_request (w : world) (prompt : string) : request :=
  {| url := endpoint w;
     meth := POST;
     headers := gen_headers w;
     payload := ChatBody (model w) prompt (temperature w) (maxTokens w) |}.

Definition tokens : list string :=
  [ "<|begin_of_text|>";
    "<|end_of_text|>";
    "<｜begin▁of▁sentence｜>";
    "<s>";
    "</s>";
    "<BOS>";
    "<EOS>";
    "<|im_start|>";
    "<|im_end|>" ].

(** [data?.choices?.[0]?.message?.content || ''], line 84. *)
Definition raw_content (data : json) : json :=
  or_else
    (opt_prop "content" (opt_prop "message" (opt_index0 (opt_prop "choices" (Some data)))))
    (JStr "").

(** [cleaned.split(t).join('')], line 87. *)
Definition remove (t cleaned : string) : string := join "" (split t cleaned).

(** Lines 86-88 on a string. *)
Definition sanitize (raw : string) : string :=
  trim (fold_left (fun cleaned t => remove t cleaned) tokens raw).

(** Lines 86-88: a [raw] that is no string has no [split] to call. *)
Definition clean (raw : json) : M string :=
  match raw with
  | JStr s => ret (sanitize s)
  | _ => throw TypeError
  end.

(** [data?.error?.message || `HTTP ${res.status}`], line 90. *)
Definition error_message (data : json) (res : response) : json :=
  or_else (opt_prop "message" (opt_prop "error" (Some data)))
          (JStr ("HTTP " ++ dec_N (status res))).

(** The loop of lines 76-101; [left] is [3 - attempt]. *)
Fixpoint attempts (w : world) (prompt : string) (left : nat) (attempt : N)
    (lastErr : json) : M (option string) :=
  match left with
  | O =>
      console Error [AStr "OpenAI error after retries:"; AVal lastErr] ;;
      ret None
  | S left' =>
      res <- fetch w (gen_request w prompt) ;;
      data <- try_catch (json_of res) (fun _ => ret JNull) ;;
      if ok res then
        cleaned <- clean (raw_content data) ;;
        ret (Some cleaned)
      else
        let lastErr := error_message data res in
        if (status res =? 429)%N then
          let waitMs := (600 * (attempt + 1))%N in
          console Warn
            [AStr ("Rate limited (429). Retrying in " ++ dec_N waitMs ++ "ms...")] ;;
          delay waitMs ;;
          attempts w prompt left' (attempt + 1)%N lastErr
        else
          console Error [AStr "OpenAI error:"; AVal lastErr] ;;
          ret None
  end.

(** The [catch] of lines 103-106. *)
Definition on_error (e : exn) : M (option string) :=
  console Error [AStr "AI error:"; AExn e] ;;
  ret None.

Definition generateQuote (w : world) (contextLines : list string)
  : M (option string) :=
  let prompt := buildPrompt contextLines in
  try_catch (attempts w prompt 3 0 (JStr "")) on_error.

(** *** [fetchClickUpContext], index.js lines 109-127 *)

(** [data.tasks]: reading a property of [null] throws. *)
Definition tasks_of (data : json) : M (option json) :=
  match data with
  | JNull => throw TypeError
  | _ => ret (prop "tasks" data)
  end.

(** [(x || []).slice(0, 5)] followed by [.map]: only an array has both. *)
Definition first_five (x : option json) : M (list json) :=
  match or_else x (JArr []) with
  | JArr items => ret (firstn 5 items)
  | _ => throw TypeError
  end.

(** The callback of lines 118-122. *)
Definition describe (t : json) : M string :=
  match t with
  | JNull => throw TypeError
  | _ =>
      let title := or_else (prop "name" t) (JStr "Untitled") in
      let status := or_else (opt_prop "status" (prop "status" t)) (JStr "unknown") in
      a <- lift (to_string title) TypeError ;;
      b <- lift (to_string status) TypeError ;;
      ret ("Task " ++ DQ ++ a ++ DQ ++ " — status: " ++ b)
  end.

Definition clickup_request (w : world) (token team : string) : request :=
  let since := (now w - 24 * 60 * 60 * 1000)%Z in
  {| url := "https://api.clickup.com/api/v2/team/" ++ team
            ++ "/task?date_updated_gt=" ++ dec_Z since ++ "&include_closed=true";
     meth := GET;
     headers := [("Authorization", token)];
     payload := NoBody |}.

Definition fetchClickUpContext (w : world) : M (list string) :=
  let CLICKUP_TOKEN := env w "CLICKUP_TOKEN" in
  let CLICKUP_TEAM_ID := env w "CLICKUP_TEAM_ID" in
  if negb (str_truthy CLICKUP_TOKEN) || negb (str_truthy CLICKUP_TEAM_ID)
  then ret []
  else
    try_catch
      (res <- fetch w (clickup_request w (tmpl CLICKUP_TOKEN) (tmpl CLICKUP_TEAM_ID)) ;;
       data <- json_of res ;;
       x <- tasks_of data ;;
       tasks <- first_five x ;;
       mapM describe tasks)
      (fun e => console Error [AStr "ClickUp fetch error:"; AExn e] ;; ret []).

(** *** [postDailyQuote], index.js lines 129-163 *)

Definition fallbacksEN : list string :=
  [ "Small commits, big momentum. Ship something today.";
    "Readability is a feature. Future you will thank present you." ].

Definition fallbacksMM : list string :=
  [ "နေ့တိုင်းအနည်းငယ်တိုးတက်ပါ—အဆုံးမှာကြီးမားတဲ့အမှတ်တံဆိပ်ဖြစ်မယ်။";
    "စိတ်ရှည်ပြီး ကုဒ်ကို သန့်ရှင်း စာလုံးဖတ်ရလွယ်အောင် ရေးပါ—နောင်တချိန်က သင့်ကိုယ်တိုင်ပဲ ကျေးဇူးတင်မယ်။" ].

(** [xs[0]] in a template literal. *)
Definition first (xs : list string) : string := tmpl (List.hd_error xs).

Definition header : string := "🌞 **Daily Dev Motivation**".

(** Lines 140-145: [text] from the [quote] that came back. *)
Definition quote_text (lang : string) (quote : option string) : string :=
  if str_truthy quote then tmpl quote
  else if lang =? "MM" then first fallbacksMM
  else if lang =? "EN_MM" then first fallbacksEN ++ LF ++ first fallbacksMM
  else first fallbacksEN.

(** Line 146. *)
Definition payloadText (text : string) : string := header ++ LF ++ text.

Definition webhook_request (w : world) (content : string) : request :=
  {| url := tmpl (DISCORD_WEBHOOK_URL w);
     meth := POST;
     headers := [("Content-Type", "application/json")];
     payload := ContentBody content |}.

(** Lines 146-162: the delivery of a text. *)
Definition deliver (w : world) (text : string) : M unit :=
  if USE_WEBHOOK w then
    try_catch
      (fetch w (webhook_request w (payloadText text)) ;;
       console Info [AStr "Sent daily quote via Discord Webhook."])
      (fun e => console Error [AStr "Webhook send failed:"; AExn e])
  else
    channel <- channels_fetch w (DISCORD_CHANNEL_ID w) ;;
    match channel with
    | None =>
        console Error [AStr "Channel not found or not a GuildText channel."]
    | Some c =>
        if negb (ctype c =? GuildText)%N then
          console Error [AStr "Channel not found or not a GuildText channel."]
        else
          send c (payloadText text) ;;
          console Info [AStr "Sent daily quote."]
    end.

Definition postDailyQuote (w : world) : M unit :=
  ctx <- fetchClickUpContext w ;;
  quote <- generateQuote w ctx ;;
  deliver w (quote_text (LANGUAGE w) quote).

End Bot.

(* ================================================================= *)
(** ** Reading the specification's words *)

Module Spec.
Import JS IO Bot.

(** [t] occurs in [s], as [s.includes(t)] would tell. *)
Fixpoint includes (t s : string) : bool :=
  String.prefix t s
  || match s with
     | EmptyString => false
     | String _ r => includes t r
     end.

(** The two fixed parts of the prompt, before and after the context. *)
Definition preamble : string :=
  LF ++ "You are a friendly CTO sending a single short motivational quote to a small dev team shipping products in Myanmar." ++ LF.

Definition requirements : string :=
  "Requirements:" ++ LF
  ++ "- 1–2 sentences MAX, punchy." ++ LF
  ++ "- Focus on engineering momentum, code quality, learning, teamwork, shipping." ++ LF
  ++ "- Avoid clichés; be concrete." ++ LF
  ++ "- If LANGUAGE=EN -> English only." ++ LF
  ++ "- If LANGUAGE=MM -> Myanmar (Burmese) only." ++ LF
  ++ "- If LANGUAGE=EN_MM -> Give English line then Myanmar line on the next line." ++ LF
  ++ LF ++ "Return ONLY the quote text. No extra commentary.".

(** A block that opens with [Context:] and gives each line its own bullet. *)
Definition context_block (lines : list string) : string :=
  "Context:" ++ LF ++ String.concat "" (map (fun l => "- " ++ l ++ LF) lines).

(** The first line of each fallback list. *)
Definition english_line_1 : string :=
  "Small commits, big momentum. Ship something today.".

Definition burmese_line_1 : string :=
  "နေ့တိုင်းအနည်းငယ်တိုးတက်ပါ—အဆုံးမှာကြီးမားတဲ့အမှတ်တံဆိပ်ဖြစ်မယ်။".

(** A world in which only the environment matters: every request is
    rejected. *)
Definition offline (e : string -> option string) : world :=
  {| env := e;
     now := 0;
     http := fun _ _ => Rejects;
     channels := fun _ => FetchRejects |}.

Definition unset : string -> option string := fun _ => None.

Definition setenv (k v : string) (e : string -> option string)
  : string -> option string :=
  fun k' => if k' =? k then Some v else e k'.

(** An address for the examples, and a world that answers every request
    with one response. *)
Definition hook : string := "https://discord.com/api/webhooks/1/token".

Definition answering (e : string -> option string) (res : response) : world :=
  {| env := e;
     now := 0;
     http := fun _ _ => Resolves res;
     channels := fun _ => FetchRejects |}.

(** Literal removal of [t] from a text: going left to right, every match of
    [t] is cut out and every other character is kept. *)
Inductive removal (t : string) : string -> string -> Prop :=
| removal_end : removal t EmptyString EmptyString
| removal_cut (s r : string) :
    removal t s r -> removal t (t ++ s) r
| removal_keep (c : ascii) (s r : string) :
    String.prefix t (String c s) = false ->
    removal t s r -> removal t (String c s) (String c r).

(** A run of white-space characters. *)
Inductive blank : string -> Prop :=
| blank_nil : blank EmptyString
| blank_ws (w s : string) :
    w <> EmptyString -> ws_len w = String.length w -> blank s -> blank (w ++ s).

(** A text in which no sentinel token occurs. *)
Definition token_free (s : string) : bool :=
  forallb (fun t => negb (includes t s)) tokens.

(** A text without the character that opens every sentinel token. *)
Fixpoint no_lt (s : string) : bool :=
  match s with
  | EmptyString => true
  | String c r => negb (c =? "<")%char && no_lt r
  end.

(** A world whose fetches are answered from a list, in order; past its end
    they are rejected. *)
Definition scripted (e : string -> option string) (answers : list fetched) : world :=
  {| env := e;
     now := 0;
     http := fun n _ => nth n answers Rejects;
     channels := fun _ => FetchRejects |}.

(** A chat completion with one choice, and a rate-limit answer. *)
Definition completion (content : string) : fetched :=
  Resolves
    {| status := 200;
       parsed :=
         Some (JObj [("choices",
                      JArr [JObj [("message", JObj [("content", JStr content)])]])]) |}.

Definition too_many : fetched :=
  Resolves
    {| status := 429;
       parsed := Some (JObj [("error", JObj [("message", JStr "Rate limited")])]) |}.

(** Credentials for the task tracker, for the examples. *)
Definition with_clickup (e : string -> option string) : string -> option string :=
  setenv "CLICKUP_TOKEN" "pk_1" (setenv "CLICKUP_TEAM_ID" "42" e).

(** A field that is text, or missing ([null] counts as missing). *)
Definition textual (o : option json) : bool :=
  match o with
  | None | Some JNull | Some (JStr _) => true
  | _ => false
  end.

(** A task as the tracker sends it: an object whose [name], when present,
    is text, and whose [status], when present, is an object with a
    [status] that is text when present. *)
Definition plain_task (t : json) : bool :=
  match t with
  | JObj fields =>
      textual (lookup "name" fields)
      && match lookup "status" fields with
         | None | Some JNull => true
         | Some (JObj inner) => textual (lookup "status" inner)
         | _ => false
         end
  | _ => false
  end.

(** Title and status of a task, with the words that stand in for a
    missing (or empty) one. *)
Definition title_of (t : json) : string :=
  match prop "name" t with
  | Some (JStr s) => if s =? "" then "Untitled" else s
  | _ => "Untitled"
  end.

Definition status_of (t : json) : string :=
  match opt_prop "status" (prop "status" t) with
  | Some (JStr s) => if s =? "" then "unknown" else s
  | _ => "unknown"
  end.

(** The context line of the specification. *)
Definition task_line (t : json) : string :=
  "Task " ++ DQ ++ title_of t ++ DQ ++ " — status: " ++ status_of t.

(** What the callback of [fetchClickUpContext] makes of any value. *)
Definition line_of (t : json) : option string :=
  match t with
  | JNull => None
  | _ =>
      match to_string (or_else (prop "name" t) (JStr "Untitled")),
            to_string (or_else (opt_prop "status" (prop "status" t)) (JStr "unknown"))
      with
      | Some a, Some b => Some ("Task " ++ DQ ++ a ++ DQ ++ " — status: " ++ b)
      | _, _ => None
      end
  end.

(** A setting is numeric when [Number] reads a number in it. *)
Definition numeric (s : string) : Prop := Number s <> NaN.

(** A setting that leaves the default in place: unset, not numeric, or a
    number whose double is zero. *)
Definition leaves_default (v : option string) : Prop :=
  match v with
  | None => True
  | Some s =>
      match Number s with
      | NaN => True
      | Infinity _ => False
      | Dec _ m e => is_zero m e = true
      end
  end.

(** The payloads a run hands to Discord: the [content] of a webhook body
    and the text of a [send]. *)
Definition delivered (evs : list event) : list string :=
  flat_map
    (fun ev =>
       match ev with
       | EvFetch r =>
           match payload r with
           | ContentBody c => [c]
           | _ => []
           end
       | EvSend t => [t]
       | _ => []
       end)
    evs.

(** A computation that always ends with a value: nothing is thrown. *)
Definition total {A : Type} (m : M A) : Prop :=
  forall n, exists a, value (m n) = Ok a.

(** A computation all of whose events are of one kind. *)
Definition only {A : Type} (P : event -> Prop) (m : M A) : Prop :=
  forall n, Forall P (events (m n)).

(** The events that come before the delivery: reads without a body, chat
    requests posted to the generation endpoint, waits and console lines. *)
Definition background (w : world) (ev : event) : Prop :=
  match ev with
  | EvFetch r =>
      (meth r = GET /\ payload r = NoBody)
      \/ (meth r = POST /\ url r = endpoint w
          /\ exists m p t k, payload r = ChatBody m p t k)
  | EvDelay _ | EvConsole _ _ => True
  | EvChannelFetch _ | EvSend _ => False
  end.

(** The calls on the Discord client: channel resolution and [send]. *)
Definition client_calls (evs : list event) : list event :=
  filter
    (fun ev =>
       match ev with
       | EvChannelFetch _ | EvSend _ => true
       | _ => false
       end)
    evs.

(** The POST requests to the address [u]. *)
Definition posts_to (u : string) (evs : list event) : list event :=
  filter
    (fun ev =>
       match ev with
       | EvFetch r =>
           match meth r with
           | POST => url r =? u
           | GET => false
           end
       | _ => false
       end)
    evs.

(** The text of section 4.3 of the specification for a language code. *)
Definition fallback_text (lang : string) : string :=
  if lang =? "MM" then burmese_line_1
  else if lang =? "EN_MM" then english_line_1 ++ LF ++ burmese_line_1
  else english_line_1.

(** The [data] of lines 82: the parsed body, [null] when it does not parse. *)
Definition data_of (res : response) : json :=
  match parsed res with
  | Some v => v
  | None => JNull
  end.

(** The payload of a success response after cleaning; there is none when
    the content is something other than text. *)
Definition cleaned_payload (data : json) : option string :=
  match raw_content data with
  | JStr s => Some (sanitize s)
  | _ => None
  end.

(** The answer to attempt [i] of a [generateQuote] that starts after [n]
    fetches. *)
Definition answer (w : world) (ctx : list string) (n i : nat) : fetched :=
  http w (i + n) (gen_request w (buildPrompt ctx)).

(** A response with status 429. *)
Definition limited (f : fetched) : bool :=
  match f with
  | Resolves res => (status res =? 429)%N
  | Rejects => false
  end.

Definition is_fetch (ev : event) : bool :=
  match ev with
  | EvFetch _ => true
  | _ => false
  end.

(** The events of a run without its console lines. *)
Definition io (evs : list event) : list event :=
  filter (fun ev => match ev with EvConsole _ _ => false | _ => true end) evs.



(** What [generateQuote] hands back within a run of [postDailyQuote]. *)
Definition generated (w : world) : result (option string) :=
  match fetchClickUpContext w 0 with
  | (Ok ctx, _, n) => let '(r, _, _) := generateQuote w ctx n in r
  | (Throw e, _, _) => Throw e
  end.

End Spec.

(* ================================================================= *)
(** ** Start of the process, index.js lines 6-50 *)

Module Startup.
Import JS IO Bot.

(** What the process meets besides the world of a run: whether
    [cron.schedule] takes an expression and a zone or throws, and what the
    client reports of its session once it is ready ([client.user.tag],
    [client.user.id], [client.ws.ping] as a template prints it, and the name
    and id of each cached guild). *)
Record host : Type := {
  sys : world;
  cron_takes : string -> string -> bool;
  user_tag : string;
  user_id : string;
  ping : string;
  guilds : list (string * string)
}.

Definition DISCORD_BOT_TOKEN (w : world) : option string := env w "DISCORD_BOT_TOKEN".

(** [TIMEZONE = 'Asia/Yangon'] and [DAILY_CRON = '0 9 * * *'], lines 13-14. *)
Definition TIMEZONE (w : world) : string := nullish (env w "TIMEZONE") "Asia/Yangon".
Definition DAILY_CRON (w : world) : string := nullish (env w "DAILY_CRON") "0 9 * * *".

(** [process.env.SEND_NOW === '1'], line 24. *)
Definition SEND_NOW (w : world) : bool :=
  match env w "SEND_NOW" with
  | Some s => s =? "1"
  | None => false
  end.

(** What the process does at its start: an event of the pipeline or a
    console line, the creation of the client, [client.login], the
    registration of the ready handler, [setPresence], and a successful
    [cron.schedule] of [postDailyQuote]. *)
Inductive step : Type :=
| Did (ev : event)
| NewClient
| LoggedIn (token : option string)
| Listening
| Presence (name status : string)
| Scheduled (expr zone : string).

(** How a piece of the start ends: normally, with the error of
    [cron.schedule], or with a rejection nobody handles. *)
Inductive ending : Type :=
| Finished
| CronThrew
| Unhandled (e : exn).

(** [console.log(line)] *)
Definition say (line : string) : step := Did (EvConsole Info [AStr line]).

(** [cron.schedule(DAILY_CRON, postDailyQuote, { timezone: TIMEZONE })] *)
Definition schedule (h : host) : option step :=
  let w := sys h in
  if cron_takes h (DAILY_CRON w) (TIMEZONE w)
  then Some (Scheduled (DAILY_CRON w) (TIMEZONE w))
  else None.

(** One [postDailyQuote()] at the start, and the line that follows when it
    resolves (lines 35 and 48). *)
Definition immediate (h : host) (after : string) : ending * list step :=
  let '(r, evs) := run (postDailyQuote (sys h)) in
  match r with
  | Ok _ => (Finished, (map Did evs ++ [say after])%list)
  | Throw e => (Unhandled e, map Did evs)
  end.

(** The top level of the script, lines 29-50. *)
Definition boot (h : host) : ending * list step :=
  let w := sys h in
  if USE_WEBHOOK w then
    let hello := say "Running in Webhook mode (no Discord client)." in
    match schedule h with
    | None => (CronThrew, [hello])
    | Some job =>
        if SEND_NOW w then
          let '(e, steps) := immediate h "Test quote sent via webhook." in
          (e, hello :: job :: steps)
        else (Finished, [hello; job])
    end
  else (Finished, [NewClient; LoggedIn (DISCORD_BOT_TOKEN w); Listening]).

(** The ready handler, lines 42-49. *)
Definition ready (h : host) : ending * list step :=
  let w := sys h in
  let hello :=
    [ say ("Logged in as " ++ user_tag h ++ " (" ++ user_id h ++ ")");
      Presence "Daily Dev Quotes" "online";
      say ("Status: online, ping=" ++ ping h ++ "ms");
      Did (EvConsole Info
             [AStr "Guilds:";
              AStr (join ", " (map (fun g => fst g ++ " (" ++ snd g ++ ")") (guilds h)))]) ] in
  match schedule h with
  | None => (CronThrew, hello)
  | Some job =>
      if SEND_NOW w then
        let '(e, steps) := immediate h "Test quote send attempted." in
        (e, (hello ++ job :: steps)%list)
      else (Finished, (hello ++ [job])%list)
  end.

End Startup.

(* ================================================================= *)
(** ** Further notions for the properties *)

Module Notions.
Import JS IO Bot Spec Startup.

(** The time a computation spends in [delay], in milliseconds. *)
Definition waited (evs : list event) : N :=
  fold_right
    (fun ev acc =>
       match ev with
       | EvDelay ms => (ms + acc)%N
       | _ => acc
       end)
    0%N evs.

(** The waits of [left] attempts of which the first is attempt [a]. *)
Fixpoint budget (a left : nat) : N :=
  match left with
  | O => 0%N
  | S left' => (600 * (N.of_nat a + 1) + budget (S a) left')%N
  end.

(** Two worlds with the same environment but for the variable [k]. *)
Definition agree_but (k : string) (w1 w2 : world) : Prop :=
  forall k', k' <> k -> env w1 k' = env w2 k'.

(** The console lines among some events. *)
Definition console_lines (evs : list event) : list event :=
  filter (fun ev => match ev with EvConsole _ _ => true | _ => false end) evs.

(** The prompts of the chat requests among some events. *)
Definition prompts (evs : list event) : list string :=
  flat_map
    (fun ev =>
       match ev with
       | EvFetch r =>
           match payload r with
           | ChatBody _ p _ _ => [p]
           | _ => []
           end
       | _ => []
       end)
    evs.

(** The whole start: the top level and, where the ready handler was
    registered, its one call. *)
Definition session (h : host) : list step :=
  (snd (boot h) ++ if USE_WEBHOOK (sys h) then [] else snd (ready h))%list.

Definition schedulings (steps : list step) : list step :=
  filter (fun s => match s with Scheduled _ _ => true | _ => false end) steps.

(** The steps that belong to a run of the pipeline: everything but console
    lines among the [Did]. *)
Definition pipeline_steps (steps : list step) : list step :=
  filter
    (fun s =>
       match s with
       | Did (EvConsole _ _) => false
       | Did _ => true
       | _ => false
       end)
    steps.

(** A host for the examples: a world, a cron that takes everything. *)
Definition hosting (w : world) : host :=
  {| sys := w;
     cron_takes := fun _ _ => true;
     user_tag := "quotes#0001";
     user_id := "1";
     ping := "42";
     guilds := [("Dev Team", "10")] |}.

(** A guild text channel that takes every message, and a world whose
    client resolves every id to it. *)
Definition open_channel : channel := {| ctype := GuildText; accepts := fun _ => true |}.

Definition resolving (e : string -> option string) (answers : list fetched)
    (c : option channel) : world :=
  {| env := e;
     now := 0;
     http := fun n _ => nth n answers Rejects;
     channels := fun _ => FetchResolves c |}.

End Notions.

(* ================================================================= *)
(** ** Properties *)

Import JS IO Bot Spec.

(** *** Strings *)

Lemma app_nil_r (s : string) : s ++ "" = s.
Proof. induction s as [|c s IH]; simpl; [reflexivity | now rewrite IH]. Qed.

Lemma app_assoc (a b c : string) : (a ++ b) ++ c = a ++ (b ++ c).
Proof. induction a as [|x a IH]; simpl; [reflexivity | now rewrite IH]. Qed.

Lemma length_app (a b : string) :
  String.length (a ++ b) = String.length a + String.length b.
Proof. induction a as [|x a IH]; simpl; [reflexivity | now rewrite IH]. Qed.

Lemma prefix_refl_app (t s : string) : String.prefix t (t ++ s) = true.
Proof.
  induction t as [|c t IH]; simpl.
  - now destruct s.
  - destruct (ascii_dec c c) as [_|ne]; [exact IH | now elim ne].
Qed.

Lemma includes_prefix (t s : string) :
  String.prefix t s = true -> includes t s = true.
Proof. intros H. destruct s; cbn [includes]; rewrite H; reflexivity. Qed.

Lemma includes_app_l (t a s : string) :
  includes t s = true -> includes t (a ++ s) = true.
Proof.
  intros H. induction a as [|c a IH]; simpl; [exact H|].
  rewrite IH. apply orb_true_r.
Qed.

Lemma includes_middle (t a b : string) : includes t (a ++ t ++ b) = true.
Proof. apply includes_app_l, includes_prefix, prefix_refl_app. Qed.

(** *** The prompt *)

Lemma bullets_join (l : string) (rest : list string) :
  "- " ++ join (LF ++ "- ") (l :: rest) ++ LF
  = String.concat "" (map (fun l => "- " ++ l ++ LF) (l :: rest)).
Proof.
  revert l. induction rest as [|l' rest IH]; intros l.
  - reflexivity.
  - change (join (LF ++ "- ") (l :: l' :: rest))
      with (l ++ (LF ++ "- ") ++ join (LF ++ "- ") (l' :: rest)).
    change (String.concat "" (map (fun l => "- " ++ l ++ LF) (l :: l' :: rest)))
      with (("- " ++ l ++ LF) ++ ""
            ++ String.concat "" (map (fun l => "- " ++ l ++ LF) (l' :: rest))).
    rewrite <- IH. rewrite !app_assoc. reflexivity.
Qed.

Lemma buildPrompt_cons (l : string) (rest : list string) :
  buildPrompt (l :: rest) = preamble ++ context_block (l :: rest) ++ requirements.
Proof.
  unfold context_block. rewrite <- bullets_join.
  unfold buildPrompt, preamble. rewrite !app_assoc. reflexivity.
Qed.

(** C10. [buildPrompt] depends on nothing but its list of context lines; a
    non-empty list puts, between the fixed preamble and the fixed
    requirements, a block that opens with [Context:] and has every line on
    its own, after a dash and a space; the empty list puts nothing there, and
    the words [Context:] then occur nowhere in the prompt. *)
Theorem buildPrompt_context :
  (forall l1 l2 : list string, l1 = l2 -> buildPrompt l1 = buildPrompt l2)
  /\ (forall lines : list string,
        lines <> [] ->
        buildPrompt lines = preamble ++ context_block lines ++ requirements)
  /\ buildPrompt [] = preamble ++ requirements
  /\ (forall lines : list string,
        includes "Context:" (buildPrompt lines) = true <-> lines <> []).
Proof.
  split; [now intros l1 l2 ->|].
  split; [intros [|l rest] H; [now elim H | apply buildPrompt_cons]|].
  split; [reflexivity|].
  intros [|l rest]; split.
  - vm_compute. discriminate.
  - intros H; now elim H.
  - discriminate.
  - intros _. rewrite buildPrompt_cons. unfold context_block.
    rewrite (app_assoc "Context:"). apply includes_middle.
Qed.

Lemma buildPrompt_context_witness :
  buildPrompt ["a"; "b"]
  = preamble ++ ("Context:" ++ LF ++ "- a" ++ LF ++ "- b" ++ LF) ++ requirements.
Proof.
  destruct buildPrompt_context as (_ & H & _).
  rewrite (H ["a"; "b"]); [reflexivity | discriminate].
Defined.

(** *** Numeric settings *)

Lemma setting_default (v : option string) (d : number) :
  leaves_default v -> num_or (Number (nullish v "")) d = d.
Proof.
  destruct v as [s|]; cbn [leaves_default nullish]; [|reflexivity].
  unfold num_or. destruct (Number s) as [|neg|neg m e]; cbn [num_truthy].
  - reflexivity.
  - intros [].
  - now intros ->.
Qed.

Lemma setting_given (v : option string) (d : number) :
  ~ leaves_default v ->
  exists s, v = Some s /\ num_or (Number (nullish v "")) d = Number s.
Proof.
  destruct v as [s|]; cbn [leaves_default nullish]; [|now intros []].
  intros H. exists s. split; [reflexivity|].
  unfold num_or. destruct (Number s) as [|neg|neg m e]; cbn [num_truthy].
  - now elim H.
  - reflexivity.
  - destruct (is_zero m e); [now elim H | reflexivity].
Qed.

(** C9, as the code has it.  The defaults (120 tokens, temperature 0.8) are
    applied exactly when the setting is unset, is not numeric, or is a
    number whose double is zero (0, -0, the empty or blank string, an
    underflow); every other numeric setting is used as given. *)
Theorem numeric_settings (w : world) :
  (leaves_default (AI_MAX_TOKENS w) -> maxTokens w = Dec false 120 0)
  /\ (~ leaves_default (AI_MAX_TOKENS w) ->
      exists s, AI_MAX_TOKENS w = Some s /\ maxTokens w = Number s)
  /\ (leaves_default (AI_TEMPERATURE w) -> temperature w = Dec false 8 (-1))
  /\ (~ leaves_default (AI_TEMPERATURE w) ->
      exists s, AI_TEMPERATURE w = Some s /\ temperature w = Number s).
Proof.
  unfold maxTokens, temperature.
  repeat split; intros H;
    (apply setting_default; exact H) || (apply setting_given; exact H).
Qed.

Example settings_read :
  map Number ["0"; ""; " 12 "; "0x1F"; "1e3"; ".5"; "-0"; "12px"; "0.2"]
  = [Dec false 0 0; Dec false 0 0; Dec false 12 0; Dec false 31 0;
     Dec false 1 3; Dec false 5 (-1); Dec true 0 0; NaN; Dec false 2 (-1)]
  /\ temperature (offline (setenv "AI_TEMPERATURE" "0.2" unset)) = Dec false 2 (-1)
  /\ maxTokens (offline (setenv "AI_MAX_TOKENS" "256" unset)) = Dec false 256 0
  /\ maxTokens (offline (setenv "AI_MAX_TOKENS" "many" unset)) = Dec false 120 0.
Proof. repeat split; reflexivity. Qed.

(** The setting 0 is numeric, and the default takes its place. *)
Lemma zero_setting_not_used :
  ~ (forall (w : world) (s : string),
       AI_TEMPERATURE w = Some s -> numeric s -> temperature w = Number s)
  /\ ~ (forall (w : world) (s : string),
       AI_MAX_TOKENS w = Some s -> numeric s -> maxTokens w = Number s).
Proof.
  split; intros H.
  - specialize (H (offline (setenv "AI_TEMPERATURE" "0" unset)) "0" eq_refl).
    vm_compute in H. discriminate H. discriminate.
  - specialize (H (offline (setenv "AI_MAX_TOKENS" "0" unset)) "0" eq_refl).
    vm_compute in H. discriminate H. discriminate.
Qed.

(** *** Computations *)

Lemma delivered_app (a b : list event) :
  delivered (a ++ b) = (delivered a ++ delivered b)%list.
Proof. apply flat_map_app. Qed.

Lemma bind_run {A B : Type} (m : M A) (k : A -> M B) (n : nat) :
  bind m k n
  = match value (m n) with
    | Ok a =>
        (value (k a (snd (m n))),
         (events (m n) ++ events (k a (snd (m n))))%list,
         snd (k a (snd (m n))))
    | Throw e => (Throw e, events (m n), snd (m n))
    end.
Proof.
  unfold bind, value, events. destruct (m n) as [[[a|e] evs] n']; cbn.
  - now destruct (k a n') as [[r evs'] n''].
  - reflexivity.
Qed.

Lemma try_catch_run {A : Type} (m : M A) (h : exn -> M A) (n : nat) :
  try_catch m h n
  = match value (m n) with
    | Ok a => m n
    | Throw e =>
        (value (h e (snd (m n))),
         (events (m n) ++ events (h e (snd (m n))))%list,
         snd (h e (snd (m n))))
    end.
Proof.
  unfold try_catch, value, events. destruct (m n) as [[[a|e] evs] n']; cbn.
  - reflexivity.
  - now destruct (h e n') as [[r evs'] n''].
Qed.

Lemma total_ret {A : Type} (a : A) : total (ret a).
Proof. intros n. now exists a. Qed.

Lemma total_emit (ev : event) : total (emit ev).
Proof. intros n. now exists tt. Qed.

Lemma total_bind {A B : Type} (m : M A) (k : A -> M B) :
  total m -> (forall a, total (k a)) -> total (bind m k).
Proof.
  intros Hm Hk n. rewrite bind_run. destruct (Hm n) as [a ->].
  destruct (Hk a (snd (m n))) as [b Hb]. now exists b.
Qed.

Lemma total_try {A : Type} (m : M A) (h : exn -> M A) :
  (forall e, total (h e)) -> total (try_catch m h).
Proof.
  intros Hh n. rewrite try_catch_run.
  destruct (value (m n)) as [a|e] eqn:E.
  - now exists a.
  - destruct (Hh e (snd (m n))) as [b Hb]. now exists b.
Qed.

Lemma only_ret {A : Type} (P : event -> Prop) (a : A) : only P (ret a).
Proof. intros n. constructor. Qed.

Lemma only_throw {A : Type} (P : event -> Prop) (e : exn) : only P (@throw A e).
Proof. intros n. constructor. Qed.

Lemma only_lift {A : Type} (P : event -> Prop) (o : option A) (e : exn) :
  only P (lift o e).
Proof. destruct o; [apply only_ret | apply only_throw]. Qed.

Lemma only_emit (P : event -> Prop) (ev : event) : P ev -> only P (emit ev).
Proof. intros H n. now repeat constructor. Qed.

Lemma only_fetch (P : event -> Prop) (w : world) (r : request) :
  P (EvFetch r) -> only P (fetch w r).
Proof.
  intros H n. unfold fetch. destruct (http w n r); now repeat constructor.
Qed.

Lemma only_bind {A B : Type} (P : event -> Prop) (m : M A) (k : A -> M B) :
  only P m -> (forall a, only P (k a)) -> only P (bind m k).
Proof.
  intros Hm Hk n. rewrite bind_run. specialize (Hm n).
  destruct (value (m n)) as [a|e]; cbn [events fst snd]; [|exact Hm].
  apply Forall_app. split; [exact Hm | apply Hk].
Qed.

Lemma only_try {A : Type} (P : event -> Prop) (m : M A) (h : exn -> M A) :
  only P m -> (forall e, only P (h e)) -> only P (try_catch m h).
Proof.
  intros Hm Hh n. rewrite try_catch_run. specialize (Hm n).
  destruct (value (m n)) as [a|e]; cbn [events fst snd]; [exact Hm|].
  apply Forall_app. split; [exact Hm | apply Hh].
Qed.

Lemma only_mapM {A B : Type} (P : event -> Prop) (f : A -> M B) (xs : list A) :
  (forall a, only P (f a)) -> only P (mapM f xs).
Proof.
  intros Hf. induction xs as [|x xs IH]; cbn [mapM].
  - apply only_ret.
  - apply only_bind; [apply Hf|]. intros y.
    apply only_bind; [apply IH|]. intros ys. apply only_ret.
Qed.

Create HintDb io.
#[local] Hint Resolve total_ret total_emit total_bind total_try
  only_ret only_throw only_lift only_bind only_try only_mapM : io.

Lemma background_console (w : world) (l : level) (args : list arg) :
  only (background w) (console l args).
Proof. now apply only_emit. Qed.

Lemma background_delay (w : world) (ms : N) : only (background w) (delay ms).
Proof. now apply only_emit. Qed.

#[local] Hint Resolve background_console background_delay : io.

Lemma background_delivered (w : world) (evs : list event) :
  Forall (background w) evs -> delivered evs = [].
Proof.
  induction 1 as [|ev evs H _ IH]; [reflexivity|].
  cbn [delivered flat_map]. fold (delivered evs). rewrite IH.
  destruct ev as [r| | | |]; try reflexivity; try now destruct H.
  destruct H as [[_ ->]|(_ & _ & m & p & t & k & ->)]; reflexivity.
Qed.

Lemma background_client_calls (w : world) (evs : list event) :
  Forall (background w) evs -> client_calls evs = [].
Proof.
  induction 1 as [|ev evs H _ IH]; [reflexivity|].
  cbn [client_calls filter]. fold (client_calls evs). rewrite IH.
  destruct ev; try reflexivity; now destruct H.
Qed.

Lemma background_posts_to (w : world) (u : string) (evs : list event) :
  endpoint w <> u -> Forall (background w) evs -> posts_to u evs = [].
Proof.
  intros Hu. induction 1 as [|ev evs H _ IH]; [reflexivity|].
  cbn [posts_to filter]. fold (posts_to u evs). rewrite IH.
  destruct ev as [r| | | |]; try reflexivity.
  destruct H as [[-> _]|(-> & E & _)]; [reflexivity|].
  rewrite E. now destruct (String.eqb_spec (endpoint w) u).
Qed.

(** *** [generateQuote] *)

Lemma gen_request_background (w : world) (prompt : string) :
  background w (EvFetch (gen_request w prompt)).
Proof. right. cbn. repeat split. now do 4 eexists. Qed.

Lemma attempts_background (w : world) (prompt : string) (left : nat) :
  forall (attempt : N) (lastErr : json),
    only (background w) (attempts w prompt left attempt lastErr).
Proof.
  induction left as [|left IH]; intros attempt lastErr; cbn [attempts].
  - auto with io.
  - apply only_bind; [apply only_fetch, gen_request_background|]. intros res.
    apply only_bind; [unfold json_of; auto with io|]. intros data.
    destruct (ok res).
    + apply only_bind; [destruct (raw_content data); cbn [clean]|]; auto with io.
    + destruct (status res =? 429)%N; auto 6 with io.
Qed.

Lemma generateQuote_background (w : world) (ctx : list string) :
  only (background w) (generateQuote w ctx).
Proof.
  unfold generateQuote, on_error.
  apply only_try; [apply attempts_background | auto with io].
Qed.

Lemma generateQuote_total (w : world) (ctx : list string) :
  total (generateQuote w ctx).
Proof. unfold generateQuote, on_error, console. auto with io. Qed.

Lemma limited_not_ok (res : response) :
  (status res =? 429)%N = true -> ok res = false.
Proof. intros H. apply N.eqb_eq in H. unfold ok. now rewrite H. Qed.

(** The loop of [generateQuote], for one world and one prompt. *)
Section Retry.

Variables (w : world) (prompt : string).

Lemma attempts_S (left : nat) (attempt : N)
    (lastErr : json) (n : nat) :
  attempts w prompt (S left) attempt lastErr n
  = let req := gen_request w prompt in
    match http w n req with
    | Rejects => (Throw FetchFailed, [EvFetch req], S n)
    | Resolves res =>
        let data := data_of res in
        if ok res then
          match raw_content data with
          | JStr s => (Ok (Some (sanitize s)), [EvFetch req], S n)
          | _ => (Throw TypeError, [EvFetch req], S n)
          end
        else if (status res =? 429)%N then
          let waitMs := (600 * (attempt + 1))%N in
          let '(r, evs, n') :=
            attempts w prompt left (attempt + 1)%N (error_message data res) (S n) in
          (r,
           EvFetch req
           :: EvConsole Warn
                [AStr ("Rate limited (429). Retrying in " ++ dec_N waitMs ++ "ms...")]
           :: EvDelay waitMs :: evs,
           n')
        else
          (Ok None,
           [EvFetch req; EvConsole Error [AStr "OpenAI error:"; AVal (error_message data res)]],
           S n)
    end.
Proof.
  cbn [attempts]. cbv zeta.
  unfold bind at 1. unfold fetch at 1.
  destruct (http w n (gen_request w prompt)) as [|res]; [reflexivity|].
  unfold bind at 1. unfold try_catch, json_of, data_of.
  destruct (parsed res) as [v|]; cbn [lift ret throw];
  (destruct (ok res);
   [ unfold bind, clean, ret, throw; destruct (raw_content _); reflexivity
   | destruct (status res =? 429)%N;
     [ unfold bind, console, delay, emit;
       destruct (attempts _ _ _ _ _ _) as [[r evs] n']; reflexivity
     | reflexivity ] ]).
Qed.


(** An attempt answered otherwise ends the loop. *)
Lemma guarded_settled (left : nat) (attempt : N)
    (lastErr : json) (n : nat) :
  let req := gen_request w prompt in
  let this := try_catch (attempts w prompt (S left) attempt lastErr) on_error n in
  limited (http w n req) = false ->
  io (events this) = [EvFetch req]
  /\ snd this = S n
  /\ value this
     = match http w n req with
       | Rejects => Ok None
       | Resolves res =>
           if ok res then Ok (cleaned_payload (data_of res)) else Ok None
       end.
Proof.
  cbv zeta. intros H. unfold try_catch. rewrite attempts_S. cbv zeta.
  destruct (http w n (gen_request w prompt)) as [|res]; [now cbn|].
  cbn [limited] in H. rewrite H. unfold cleaned_payload.
  destruct (ok res); [|now cbn].
  destruct (raw_content (data_of res)); now cbn.
Qed.

Lemma guarded_exhausted (attempt : N)
    (lastErr : json) (n : nat) :
  try_catch (attempts w prompt 0 attempt lastErr) on_error n
  = (Ok None, [EvConsole Error [AStr "OpenAI error after retries:"; AVal lastErr]], n).
Proof. reflexivity. Qed.



Lemma guarded_fetches (left : nat) :
  forall (attempt : N) (lastErr : json) (n : nat),
    let this := try_catch (attempts w prompt left attempt lastErr) on_error n in
    length (filter is_fetch (events this)) <= left
    /\ (forall r, In (EvFetch r) (events this) -> r = gen_request w prompt).
Proof.
  induction left as [|left IH]; intros attempt lastErr n this; subst this.
  - rewrite guarded_exhausted. cbn. split; [lia|].
    intros r [H|[]]. discriminate H.
  - destruct (limited (http w n (gen_request w prompt))) eqn:L.
    + destruct (http w n (gen_request w prompt)) as [|res] eqn:E; [discriminate|].
      cbn [limited] in L. unfold try_catch. rewrite attempts_S. cbv zeta.
      rewrite E, (limited_not_ok _ L), L.
      specialize (IH (attempt + 1)%N (error_message (data_of res) res) (S n)).
      cbv zeta in IH. unfold try_catch in IH.
      destruct (attempts w prompt left _ _ (S n)) as [[[x|e] evs] n'];
        cbn in IH |- *; destruct IH as [IH1 IH2].
      * split; [lia|]. intros r [H|[H|[H|H]]]; try discriminate H.
        -- now injection H as <-.
        -- now apply IH2.
      * split; [lia|]. intros r [H|[H|[H|H]]]; try discriminate H.
        -- now injection H as <-.
        -- now apply IH2.
    + unfold try_catch. rewrite attempts_S. cbv zeta.
      destruct (http w n (gen_request w prompt)) as [|res].
      * cbn. split; [lia|]. intros r [H|[H|[]]]; [now injection H as <-|discriminate H].
      * cbn [limited] in L. rewrite L.
        destruct (ok res); [destruct (raw_content _)|]; cbn;
          (split; [lia|]);
          intros r H; repeat (destruct H as [H|H]; try discriminate H);
          try (now injection H as <-); now destruct H.
Qed.

End Retry.

(** *** [fetchClickUpContext] *)

Lemma describe_background (w : world) (t : json) : only (background w) (describe t).
Proof. destruct t; cbn [describe]; auto 6 with io. Qed.

Lemma fetchClickUpContext_background (w : world) :
  only (background w) (fetchClickUpContext w).
Proof.
  unfold fetchClickUpContext.
  destruct (negb _ || negb _); [auto with io|].
  apply only_try; [|auto with io].
  apply only_bind; [apply only_fetch; now left|]. intros res.
  apply only_bind; [unfold json_of; auto with io|]. intros data.
  apply only_bind; [destruct data; cbn [tasks_of]; auto with io|]. intros x.
  apply only_bind.
  - unfold first_five. destruct (or_else x (JArr [])); auto with io.
  - intros tasks. apply only_mapM, describe_background.
Qed.

Lemma fetchClickUpContext_total (w : world) : total (fetchClickUpContext w).
Proof.
  unfold fetchClickUpContext, console.
  destruct (negb _ || negb _); auto with io.
Qed.

(** *** [postDailyQuote] *)

Lemma quote_text_fallback (lang : string) (q : option string) :
  str_truthy q = false -> quote_text lang q = fallback_text lang.
Proof. intros H. unfold quote_text. now rewrite H. Qed.

Lemma deliver_webhook (w : world) (text : string) (n : nat) :
  USE_WEBHOOK w = true ->
  deliver w text n
  = let req := webhook_request w (payloadText text) in
    match http w n req with
    | Rejects =>
        (Ok tt,
         [EvFetch req; EvConsole Error [AStr "Webhook send failed:"; AExn FetchFailed]],
         S n)
    | Resolves _ =>
        (Ok tt,
         [EvFetch req; EvConsole Info [AStr "Sent daily quote via Discord Webhook."]],
         S n)
    end.
Proof.
  intros H. unfold deliver. rewrite H.
  unfold try_catch, bind, fetch, console, emit.
  now destruct (http w n _).
Qed.

Lemma deliver_bot (w : world) (text : string) (n : nat) :
  USE_WEBHOOK w = false ->
  deliver w text n
  = let id := DISCORD_CHANNEL_ID w in
    let lost := EvConsole Error [AStr "Channel not found or not a GuildText channel."] in
    match channels w id with
    | FetchRejects => (Throw DiscordAPIError, [EvChannelFetch id], n)
    | FetchResolves None => (Ok tt, [EvChannelFetch id; lost], n)
    | FetchResolves (Some c) =>
        if (ctype c =? GuildText)%N then
          if accepts c (payloadText text) then
            (Ok tt,
             [EvChannelFetch id; EvSend (payloadText text);
              EvConsole Info [AStr "Sent daily quote."]],
             n)
          else
            (Throw DiscordAPIError, [EvChannelFetch id; EvSend (payloadText text)], n)
        else (Ok tt, [EvChannelFetch id; lost], n)
    end.
Proof.
  intros H. unfold deliver. rewrite H.
  unfold channels_fetch, send, console, bind, emit, ret, throw.
  destruct (channels w _) as [|[c|]]; cbn; [reflexivity| |reflexivity].
  destruct (ctype c =? GuildText)%N; cbn; [|reflexivity].
  now destruct (accepts c _).
Qed.

Lemma deliver_delivered (w : world) (text : string) (n : nat) :
  delivered (events (deliver w text n)) = []
  \/ delivered (events (deliver w text n)) = [payloadText text].
Proof.
  destruct (USE_WEBHOOK w) eqn:H.
  - right. rewrite deliver_webhook by exact H. cbv zeta.
    now destruct (http w n _).
  - rewrite deliver_bot by exact H. cbv zeta.
    destruct (channels w _) as [|[c|]]; [now left| |now left].
    destruct (ctype c =? GuildText)%N; [|now left].
    right. now destruct (accepts c _).
Qed.

(** A run is the context fetch, the generation and the delivery, one after
    the other; the first two always hand a value on. *)
Lemma postDailyQuote_run (w : world) :
  exists (ctx : list string) (q : option string),
    let c := fetchClickUpContext w 0 in
    let g := generateQuote w ctx (snd c) in
    let d := deliver w (quote_text (LANGUAGE w) q) (snd g) in
    value c = Ok ctx /\ value g = Ok q /\ generated w = Ok q
    /\ run (postDailyQuote w)
       = (value d, (events c ++ events g ++ events d)%list).
Proof.
  destruct (fetchClickUpContext_total w 0) as [ctx Hc].
  destruct (generateQuote_total w ctx (snd (fetchClickUpContext w 0))) as [q Hg].
  exists ctx, q. cbv zeta. split; [exact Hc|]. split; [exact Hg|].
  unfold generated, run, postDailyQuote. rewrite bind_run, Hc.
  rewrite bind_run, Hg. cbn [value events fst snd].
  split.
  - unfold value in Hc, Hg.
    destruct (fetchClickUpContext w 0) as [[rc ec] nc]; cbn in *; subst rc.
    destruct (generateQuote w ctx nc) as [[rg eg] ng]; cbn in *; now subst rg.
  - reflexivity.
Qed.

(** The same, with what comes before the delivery gathered in one list. *)
Lemma run_split (w : world) :
  exists (q : option string) (n : nat) (pre : list event),
    let d := deliver w (quote_text (LANGUAGE w) q) n in
    generated w = Ok q
    /\ Forall (background w) pre
    /\ run (postDailyQuote w) = (value d, (pre ++ events d)%list).
Proof.
  destruct (postDailyQuote_run w) as (ctx & q & Hc & Hg & Hq & Hrun).
  cbv zeta in *.
  exists q, (snd (generateQuote w ctx (snd (fetchClickUpContext w 0)))).
  exists (events (fetchClickUpContext w 0)
          ++ events (generateQuote w ctx (snd (fetchClickUpContext w 0))))%list.
  cbv zeta. split; [exact Hq|]. split.
  - apply Forall_app. split;
      [apply fetchClickUpContext_background | apply generateQuote_background].
  - rewrite Hrun. now rewrite <- List.app_assoc.
Qed.

Lemma run_delivered (w : world) (q : option string) :
  generated w = Ok q ->
  exists n, delivered (snd (run (postDailyQuote w)))
            = delivered (events (deliver w (quote_text (LANGUAGE w) q) n)).
Proof.
  intros Hq. destruct (run_split w) as (q' & n & pre & Hq' & Hpre & Hrun).
  cbv zeta in *. rewrite Hq in Hq'. injection Hq' as <-.
  exists n. rewrite Hrun. cbn [snd]. rewrite delivered_app.
  now rewrite (background_delivered w pre Hpre).
Qed.

Lemma no_result_delivery (w : world) (q : option string) :
  generated w = Ok q ->
  str_truthy q = false ->
  let evs := snd (run (postDailyQuote w)) in
  let message := header ++ LF ++ fallback_text (LANGUAGE w) in
  (forall t, In t (delivered evs) -> t = message)
  /\ (USE_WEBHOOK w = true -> delivered evs = [message]).
Proof.
  intros Hq Hnone. cbv zeta.
  destruct (run_delivered w q Hq) as [n ->].
  rewrite (quote_text_fallback _ _ Hnone). split.
  - intros t Ht.
    destruct (deliver_delivered w (fallback_text (LANGUAGE w)) n) as [E|E];
      rewrite E in Ht; [destruct Ht|].
    destruct Ht as [<-|[]]. reflexivity.
  - intros Hw. rewrite deliver_webhook by exact Hw. cbv zeta.
    now destruct (http w n _).
Qed.

(** *** The claims about [generateQuote] *)


Example two_limits_then_a_quote :
  let w := scripted unset [too_many; too_many; completion " <s>Ship it.</s> "] in
  let req := gen_request w (buildPrompt []) in
  value (generateQuote w [] 0) = Ok (Some "Ship it.")
  /\ io (events (generateQuote w [] 0))
     = [EvFetch req; EvDelay 600; EvFetch req; EvDelay 1200; EvFetch req].
Proof. cbv zeta. split; vm_compute; reflexivity. Qed.

Example three_limits :
  let w := scripted unset [too_many; too_many; too_many; completion "late"] in
  let req := gen_request w (buildPrompt []) in
  value (generateQuote w [] 0) = Ok None
  /\ io (events (generateQuote w [] 0))
     = [EvFetch req; EvDelay 600; EvFetch req; EvDelay 1200;
        EvFetch req; EvDelay 1800].
Proof. cbv zeta. split; vm_compute; reflexivity. Qed.

(** C2. Whatever the endpoint does, [generateQuote] hands its caller a
    value, a string or [null], and throws nothing: a rejected request and a
    failure status other than 429 give [null], a success whose body is not
    JSON gives the empty string; and a run whose generation gave either of
    the two delivers the fallback text under the header. *)
Theorem generateQuote_never_raises :
  (forall (w : world) (ctx : list string) (n : nat),
     exists q : option string, value (generateQuote w ctx n) = Ok q)
  /\ (forall (w : world) (ctx : list string) (n : nat),
        let req := gen_request w (buildPrompt ctx) in
        let out := generateQuote w ctx n in
        (http w n req = Rejects -> value out = Ok None)
        /\ (forall res, http w n req = Resolves res ->
                        ok res = false -> status res <> 429%N -> value out = Ok None)
        /\ (forall res, http w n req = Resolves res ->
                        ok res = true -> parsed res = None ->
                        value out = Ok (Some EmptyString)))
  /\ (forall (w : world) (q : option string),
        generated w = Ok q ->
        str_truthy q = false ->
        let evs := snd (run (postDailyQuote w)) in
        let message := header ++ LF ++ fallback_text (LANGUAGE w) in
        (forall t, In t (delivered evs) -> t = message)
        /\ (USE_WEBHOOK w = true -> delivered evs = [message])).
Proof.
  split; [exact generateQuote_total|]. split; [|exact no_result_delivery].
  intros w ctx n. cbv zeta. unfold generateQuote.
  repeat split.
  - intros E.
    destruct (guarded_settled w (buildPrompt ctx) 2 0 (JStr "") n) as (_ & _ & ->);
      now rewrite E.
  - intros res E Hok H429.
    destruct (guarded_settled w (buildPrompt ctx) 2 0 (JStr "") n) as (_ & _ & ->);
      rewrite E; [now apply N.eqb_neq | now rewrite Hok].
  - intros res E Hok Hbody.
    destruct (guarded_settled w (buildPrompt ctx) 2 0 (JStr "") n) as (_ & _ & ->);
      rewrite E.
    + cbn [limited]. destruct (status res =? 429)%N eqn:L; [|reflexivity].
      now rewrite (limited_not_ok _ L) in Hok.
    + rewrite Hok. unfold data_of. rewrite Hbody. reflexivity.
Qed.

(** C3, as the code has it.  When no quote came back, the text handed to
    Discord is the header, a line feed and a text fixed by the language code
    alone: the first Burmese line for MM; the first English line, a line
    feed and the first Burmese line for EN_MM; the first English line for
    anything else, EN among them.  An unset LANGUAGE counts as EN_MM. *)
Theorem fallback_by_language (w : world) (q : option string) :
  generated w = Ok q ->
  str_truthy q = false ->
  let evs := snd (run (postDailyQuote w)) in
  let text := quote_text (LANGUAGE w) q in
  (forall t, In t (delivered evs) -> t = header ++ LF ++ text)
  /\ (USE_WEBHOOK w = true -> delivered evs = [header ++ LF ++ text])
  /\ (LANGUAGE w = "MM" -> text = burmese_line_1)
  /\ (LANGUAGE w = "EN_MM" -> text = english_line_1 ++ LF ++ burmese_line_1)
  /\ (LANGUAGE w <> "MM" -> LANGUAGE w <> "EN_MM" -> text = english_line_1)
  /\ (LANGUAGE w = "EN" -> text = english_line_1)
  /\ (forall s, env w "LANGUAGE" = Some s -> LANGUAGE w = s)
  /\ (env w "LANGUAGE" = None -> LANGUAGE w = "EN_MM").
Proof.
  intros Hq Hnone. cbv zeta.
  rewrite (quote_text_fallback _ _ Hnone).
  destruct (no_result_delivery w q Hq Hnone) as [Hin Hhook].
  split; [exact Hin|]. split; [exact Hhook|].
  unfold fallback_text, LANGUAGE.
  repeat split.
  - now intros ->.
  - now intros ->.
  - intros H1 H2.
    destruct (String.eqb_spec (nullish (env w "LANGUAGE") "EN_MM") "MM");
      [contradiction|].
    destruct (String.eqb_spec (nullish (env w "LANGUAGE") "EN_MM") "EN_MM");
      [contradiction|reflexivity].
  - now intros ->.
  - now intros s ->.
  - now intros ->.
Qed.

Lemma fallback_by_language_witness :
  delivered
    (snd (run (postDailyQuote
                 (offline (setenv "LANGUAGE" "EN"
                             (setenv "DISCORD_WEBHOOK_URL" hook unset))))))
  = [header ++ LF ++ english_line_1].
Proof.
  pose proof (fallback_by_language
                (offline (setenv "LANGUAGE" "EN"
                            (setenv "DISCORD_WEBHOOK_URL" hook unset)))
                None eq_refl eq_refl) as H.
  cbv zeta in H. destruct H as (_ & H & _ & _ & _ & HEN & _).
  rewrite (H eq_refl), (HEN eq_refl). reflexivity.
Defined.

(** With LANGUAGE left unset the code words the fallback for EN_MM, not
    for EN. *)
Lemma unset_language_is_not_EN :
  let w := offline (setenv "DISCORD_WEBHOOK_URL" hook unset) in
  env w "LANGUAGE" = None
  /\ generated w = Ok None
  /\ LANGUAGE w <> "EN"
  /\ delivered (snd (run (postDailyQuote w)))
     = [header ++ LF ++ english_line_1 ++ LF ++ burmese_line_1]
  /\ delivered (snd (run (postDailyQuote w))) <> [header ++ LF ++ english_line_1].
Proof. cbv zeta. repeat split; vm_compute; (reflexivity || discriminate). Qed.

(** *** Delivery *)

(** C6. With a webhook address configured, a run ends with one POST to that
    address, its body the header, a line feed and the text, followed by one
    console line; nothing else of the run goes to Discord, and the client is
    never asked to resolve a channel or to send. *)
Theorem webhook_delivery (w : world) :
  USE_WEBHOOK w = true ->
  exists (u : string) (q : option string) (pre : list event)
         (l : level) (args : list arg),
    let post :=
      EvFetch {| url := u;
                 meth := POST;
                 headers := [("Content-Type", "application/json")];
                 payload := ContentBody (header ++ LF ++ quote_text (LANGUAGE w) q) |} in
    let evs := (pre ++ [post; EvConsole l args])%list in
    DISCORD_WEBHOOK_URL w = Some u
    /\ generated w = Ok q
    /\ run (postDailyQuote w) = (Ok tt, evs)
    /\ delivered evs = [header ++ LF ++ quote_text (LANGUAGE w) q]
    /\ client_calls evs = []
    /\ (endpoint w <> u -> posts_to u evs = [post]).
Proof.
  intros Hw. destruct (run_split w) as (q & n & pre & Hq & Hpre & Hrun).
  cbv zeta in Hrun. rewrite deliver_webhook in Hrun by exact Hw.
  cbv zeta in Hrun. unfold webhook_request, payloadText in Hrun.
  assert (exists u, DISCORD_WEBHOOK_URL w = Some u) as [u Hu].
  { unfold USE_WEBHOOK in Hw. destruct (DISCORD_WEBHOOK_URL w) as [u|];
      [now exists u | discriminate]. }
  rewrite Hu in Hrun. cbn [tmpl] in Hrun.
  exists u, q, pre.
  assert (forall l args,
            let post :=
              EvFetch {| url := u; meth := POST;
                         headers := [("Content-Type", "application/json")];
                         payload := ContentBody
                                      (header ++ LF ++ quote_text (LANGUAGE w) q) |} in
            let evs := (pre ++ [post; EvConsole l args])%list in
            delivered evs = [header ++ LF ++ quote_text (LANGUAGE w) q]
            /\ client_calls evs = []
            /\ (endpoint w <> u -> posts_to u evs = [post])) as Hevs.
  { intros l args. cbv zeta. split; [|split].
    - rewrite delivered_app, (background_delivered w pre Hpre). reflexivity.
    - unfold client_calls. rewrite filter_app.
      fold (client_calls pre). now rewrite (background_client_calls w pre Hpre).
    - intros Hne. unfold posts_to. rewrite filter_app.
      fold (posts_to u pre). rewrite (background_posts_to w u pre Hne Hpre).
      cbn. now rewrite String.eqb_refl. }
  destruct (http w n _); eexists; eexists; cbv zeta;
    (split; [exact Hu|]); (split; [exact Hq|]); (split; [exact Hrun|]);
    apply Hevs.
Qed.

Lemma webhook_delivery_witness :
  let w := offline (setenv "DISCORD_WEBHOOK_URL" hook unset) in
  client_calls (snd (run (postDailyQuote w))) = []
  /\ length (posts_to hook (snd (run (postDailyQuote w)))) = 1.
Proof.
  cbv zeta.
  destruct (webhook_delivery (offline (setenv "DISCORD_WEBHOOK_URL" hook unset))
              eq_refl)
    as (u & q & pre & l & args & Hu & _ & Hrun & _ & Hclient & Hposts).
  cbv zeta in *. injection Hu as <-.
  rewrite Hrun. cbn [snd]. split; [exact Hclient|].
  rewrite Hposts; [reflexivity | discriminate].
Defined.

(** In bot-client mode a channel that resolves to nothing, or to a channel
    that is no guild text channel, ends the delivery with an error line and
    without a send. *)
Lemma wrong_channel_aborts (w : world) (text : string) (n : nat) (c : option channel) :
  USE_WEBHOOK w = false ->
  channels w (DISCORD_CHANNEL_ID w) = FetchResolves c ->
  match c with
  | Some ch => ctype ch <> GuildText
  | None => True
  end ->
  deliver w text n
  = (Ok tt,
     [EvChannelFetch (DISCORD_CHANNEL_ID w);
      EvConsole Error [AStr "Channel not found or not a GuildText channel."]],
     n).
Proof.
  intros Hw Hc Hty. rewrite deliver_bot by exact Hw. cbv zeta. rewrite Hc.
  destruct c as [ch|]; [|reflexivity].
  apply N.eqb_neq in Hty. now rewrite Hty.
Qed.

(** C7, where the code falls short of it.  In bot-client mode, when the
    resolution of the channel id is rejected, nothing is sent, but nothing
    is logged by the delivery either, and the exception leaves
    [postDailyQuote]. *)
Theorem rejected_channel_escapes (w : world) :
  USE_WEBHOOK w = false ->
  channels w (DISCORD_CHANNEL_ID w) = FetchRejects ->
  exists pre : list event,
    Forall (background w) pre
    /\ run (postDailyQuote w)
       = (Throw DiscordAPIError, (pre ++ [EvChannelFetch (DISCORD_CHANNEL_ID w)])%list).
Proof.
  intros Hw Hc. destruct (run_split w) as (q & n & pre & _ & Hpre & Hrun).
  cbv zeta in Hrun. rewrite deliver_bot in Hrun by exact Hw.
  cbv zeta in Hrun. rewrite Hc in Hrun.
  exists pre. split; [exact Hpre | exact Hrun].
Qed.

Lemma rejected_channel_escapes_witness :
  fst (run (postDailyQuote (offline (setenv "DISCORD_CHANNEL_ID" "123" unset))))
  = Throw DiscordAPIError.
Proof.
  destruct (rejected_channel_escapes
              (offline (setenv "DISCORD_CHANNEL_ID" "123" unset)) eq_refl eq_refl)
    as (pre & _ & ->).
  reflexivity.
Defined.

(** In webhook mode a rejected request is caught and logged as a failure;
    there is one request and no exception. *)
Lemma webhook_rejection_logged (w : world) (text : string) (n : nat) :
  USE_WEBHOOK w = true ->
  http w n (webhook_request w (payloadText text)) = Rejects ->
  deliver w text n
  = (Ok tt,
     [EvFetch (webhook_request w (payloadText text));
      EvConsole Error [AStr "Webhook send failed:"; AExn FetchFailed]],
     S n).
Proof.
  intros Hw Hr. rewrite deliver_webhook by exact Hw. cbv zeta. now rewrite Hr.
Qed.

(** C8, where the code falls short of it.  In webhook mode a response with
    a failure status is not told from a success: the one request is
    followed by the line that reports the quote as sent. *)
Theorem webhook_failure_status_reported_sent
    (w : world) (text : string) (n : nat) (res : response) :
  USE_WEBHOOK w = true ->
  http w n (webhook_request w (payloadText text)) = Resolves res ->
  ok res = false ->
  deliver w text n
  = (Ok tt,
     [EvFetch (webhook_request w (payloadText text));
      EvConsole Info [AStr "Sent daily quote via Discord Webhook."]],
     S n).
Proof.
  intros Hw Hr _. rewrite deliver_webhook by exact Hw. cbv zeta. now rewrite Hr.
Qed.

Lemma webhook_failure_status_reported_sent_witness :
  let w := answering (setenv "DISCORD_WEBHOOK_URL" hook unset)
                     {| status := 404; parsed := None |} in
  events (deliver w "Ship it." 0)
  = [EvFetch (webhook_request w (payloadText "Ship it."));
     EvConsole Info [AStr "Sent daily quote via Discord Webhook."]].
Proof.
  cbv zeta.
  rewrite (webhook_failure_status_reported_sent
             (answering (setenv "DISCORD_WEBHOOK_URL" hook unset)
                        {| status := 404; parsed := None |})
             "Ship it." 0 {| status := 404; parsed := None |}
             eq_refl eq_refl eq_refl).
  reflexivity.
Defined.

(** *** The claims about [fetchClickUpContext] *)

Lemma describe_run (t : json) (n : nat) :
  describe t n
  = (match line_of t with Some l => Ok l | None => Throw TypeError end, [], n).
Proof.
  unfold describe, line_of.
  destruct t; try reflexivity;
    unfold bind, lift, ret, throw;
    destruct (to_string (or_else (prop "name" _) _)); try reflexivity;
    destruct (to_string (or_else (opt_prop "status" _) _)); reflexivity.
Qed.

Lemma mapM_describe_run (ts : list json) (n : nat) :
  mapM describe ts n
  = (match all_some (map line_of ts) with
     | Some ls => Ok ls
     | None => Throw TypeError
     end, [], n).
Proof.
  induction ts as [|t ts IH]; [reflexivity|].
  cbn [mapM map all_some]. unfold bind at 1. rewrite describe_run.
  destruct (line_of t) as [l|]; [|reflexivity].
  unfold bind. rewrite IH.
  destruct (all_some (map line_of ts)); reflexivity.
Qed.

Lemma all_some_length {A : Type} (xs : list (option A)) (ys : list A) :
  all_some xs = Some ys -> length ys = length xs.
Proof.
  revert ys. induction xs as [|[x|] xs IH]; intros ys; cbn [all_some].
  - now intros [= <-].
  - destruct (all_some xs) as [zs|]; [|discriminate].
    intros [= <-]. cbn. f_equal. now apply IH.
  - discriminate.
Qed.

Lemma plain_task_line (t : json) :
  plain_task t = true -> line_of t = Some (task_line t).
Proof.
  destruct t as [| | | | |fields]; try discriminate.
  unfold plain_task, line_of, task_line, title_of, status_of.
  cbn [prop]. intros H. apply andb_prop in H as [Hname Hstatus].
  assert (to_string (or_else (lookup "name" fields) (JStr "Untitled"))
          = Some match lookup "name" fields with
                 | Some (JStr s) => if s =? "" then "Untitled" else s
                 | _ => "Untitled"
                 end) as ->.
  { destruct (lookup "name" fields) as [[| | |s| |]|]; try discriminate;
      try reflexivity.
    cbn. now destruct (s =? ""). }
  assert (to_string (or_else (opt_prop "status" (lookup "status" fields))
                             (JStr "unknown"))
          = Some match opt_prop "status" (lookup "status" fields) with
                 | Some (JStr s) => if s =? "" then "unknown" else s
                 | _ => "unknown"
                 end) as ->.
  { destruct (lookup "status" fields) as [[| | | | |inner]|]; try discriminate;
      try reflexivity.
    cbn [opt_prop prop].
    destruct (lookup "status" inner) as [[| | |s| |]|]; try discriminate;
      try reflexivity.
    cbn. now destruct (s =? ""). }
  reflexivity.
Qed.

Lemma plain_tasks_lines (ts : list json) :
  forallb plain_task ts = true ->
  all_some (map line_of ts) = Some (map task_line ts).
Proof.
  induction ts as [|t ts IH]; [reflexivity|].
  cbn [forallb map all_some]. intros H. apply andb_prop in H as [Ht Hts].
  now rewrite (plain_task_line t Ht), (IH Hts).
Qed.

(** The function once the credentials are there. *)
Lemma fetchClickUpContext_run (w : world) (token team : string) (n : nat) :
  env w "CLICKUP_TOKEN" = Some token -> token <> "" ->
  env w "CLICKUP_TEAM_ID" = Some team -> team <> "" ->
  fetchClickUpContext w n
  = let req := clickup_request w token team in
    let failed e := EvConsole Error [AStr "ClickUp fetch error:"; AExn e] in
    match http w n req with
    | Rejects => (Ok [], [EvFetch req; failed FetchFailed], S n)
    | Resolves res =>
        match parsed res with
        | None => (Ok [], [EvFetch req; failed SyntaxError], S n)
        | Some JNull => (Ok [], [EvFetch req; failed TypeError], S n)
        | Some data =>
            match or_else (prop "tasks" data) (JArr []) with
            | JArr items =>
                match all_some (map line_of (firstn 5 items)) with
                | Some ls => (Ok ls, [EvFetch req], S n)
                | None => (Ok [], [EvFetch req; failed TypeError], S n)
                end
            | _ => (Ok [], [EvFetch req; failed TypeError], S n)
            end
        end
    end.
Proof.
  intros Ht Ht' Hi Hi'. unfold fetchClickUpContext. rewrite Ht, Hi.
  cbn [str_truthy tmpl].
  apply String.eqb_neq in Ht', Hi'. rewrite Ht', Hi'. cbn [negb orb].
  cbv zeta. unfold try_catch, bind at 1, fetch.
  destruct (http w n _) as [|res]; [reflexivity|].
  unfold bind at 1, json_of.
  destruct (parsed res) as [data|]; [|reflexivity]. cbn [lift ret].
  assert (forall x : option json,
            (tasks <- first_five x;; mapM describe tasks) (S n)
            = match or_else x (JArr []) with
              | JArr items =>
                  (match all_some (map line_of (firstn 5 items)) with
                   | Some ls => Ok ls
                   | None => Throw TypeError
                   end, [], S n)
              | _ => (Throw TypeError, [], S n)
              end) as Hrest.
  { intros x. unfold bind, first_five.
    destruct (or_else x (JArr [])); try reflexivity.
    cbn [ret]. rewrite mapM_describe_run.
    destruct (all_some _); reflexivity. }
  destruct data; cbn [tasks_of]; try reflexivity;
    unfold bind at 1; cbn [ret throw]; rewrite Hrest;
    destruct (or_else _ _); try reflexivity;
    destruct (all_some _); reflexivity.
Qed.

Lemma fetchClickUpContext_unconfigured (w : world) (n : nat) :
  str_truthy (env w "CLICKUP_TOKEN") = false
  \/ str_truthy (env w "CLICKUP_TEAM_ID") = false ->
  fetchClickUpContext w n = (Ok [], [], n).
Proof.
  intros H. unfold fetchClickUpContext.
  destruct H as [-> | ->]; [reflexivity|].
  now rewrite orb_true_r.
Qed.

Lemma str_truthy_inv (o : option string) :
  str_truthy o = true -> exists s, o = Some s /\ s <> "".
Proof.
  destruct o as [s|]; [|discriminate]. cbn.
  intros H. exists s. split; [reflexivity|].
  apply String.eqb_neq. now destruct (s =? "").
Qed.

Lemma fetchClickUpContext_short (w : world) (n : nat) :
  exists lines, value (fetchClickUpContext w n) = Ok lines /\ length lines <= 5.
Proof.
  destruct (str_truthy (env w "CLICKUP_TOKEN")) eqn:Ht.
  2:{ exists []. rewrite (fetchClickUpContext_unconfigured w n (or_introl Ht)).
      split; [reflexivity | cbn; lia]. }
  destruct (str_truthy (env w "CLICKUP_TEAM_ID")) eqn:Hi.
  2:{ exists []. rewrite (fetchClickUpContext_unconfigured w n (or_intror Hi)).
      split; [reflexivity | cbn; lia]. }
  apply str_truthy_inv in Ht as (token & Ht & Ht').
  apply str_truthy_inv in Hi as (team & Hi & Hi').
  rewrite (fetchClickUpContext_run w token team n Ht Ht' Hi Hi'). cbv zeta.
  assert (forall items ls,
            all_some (map line_of (firstn 5 items)) = Some ls -> length ls <= 5)
    as Hlen.
  { intros items ls H. apply all_some_length in H. rewrite H, length_map.
    apply firstn_le_length. }
  assert (length (@nil string) <= 5) as H0 by (cbn; lia).
  destruct (http w n _) as [|res]; [now exists []|].
  destruct (parsed res) as [data|]; [|now exists []].
  destruct data; try (now exists []);
    (destruct (or_else _ _) as [| | | |items|]; try (now exists []);
     destruct (all_some _) as [ls|] eqn:E; [|now exists []];
     exists ls; split; [reflexivity | now apply (Hlen items)]).
Qed.

(** X22. [fetchClickUpContext] always hands back a list, of at most five
    lines.  The list is empty, with no request made, when a credential is
    missing; it is empty when the request is rejected, when the body is not
    JSON, when the body has no [tasks] and when its [tasks] is anything but
    an array; for a body whose [tasks] is an array it has the line of each
    of the first five elements, in their order, or is empty when one of
    them has no line; and for plain tasks the line is the title and the
    status, with Untitled and unknown for a missing one. *)
Theorem context_lines (w : world) (n : nat) :
  let out := fetchClickUpContext w n in
  (exists lines, value out = Ok lines /\ length lines <= 5)
  /\ (str_truthy (env w "CLICKUP_TOKEN") = false
      \/ str_truthy (env w "CLICKUP_TEAM_ID") = false ->
      out = (Ok [], [], n))
  /\ (forall token team : string,
        env w "CLICKUP_TOKEN" = Some token -> token <> "" ->
        env w "CLICKUP_TEAM_ID" = Some team -> team <> "" ->
        let req := clickup_request w token team in
        (http w n req = Rejects -> value out = Ok [])
        /\ (forall res,
              http w n req = Resolves res -> parsed res = None ->
              value out = Ok [])
        /\ (forall res data,
              http w n req = Resolves res -> parsed res = Some data ->
              prop "tasks" data = None ->
              value out = Ok [])
        /\ (forall res data items,
              http w n req = Resolves res -> parsed res = Some data ->
              prop "tasks" data = Some (JArr items) ->
              forallb plain_task (firstn 5 items) = true ->
              value out = Ok (map task_line (firstn 5 items)))
        /\ (forall res data v,
              http w n req = Resolves res -> parsed res = Some data ->
              prop "tasks" data = Some v ->
              (forall items, v <> JArr items) ->
              value out = Ok [])
        /\ (forall res data items,
              http w n req = Resolves res -> parsed res = Some data ->
              prop "tasks" data = Some (JArr items) ->
              value out
              = Ok match all_some (map line_of (firstn 5 items)) with
                   | Some ls => ls
                   | None => []
                   end)).
Proof.
  cbv zeta. split; [apply fetchClickUpContext_short|].
  split; [apply fetchClickUpContext_unconfigured|].
  intros token team Ht Ht' Hi Hi'.
  rewrite (fetchClickUpContext_run w token team n Ht Ht' Hi Hi'). cbv zeta.
  repeat split.
  - now intros ->.
  - intros res -> ->. reflexivity.
  - intros res data -> -> Hnone.
    destruct data; try reflexivity; cbn [prop] in Hnone |- *; now rewrite Hnone.
  - intros res data items -> -> Htasks Hplain.
    destruct data; try discriminate.
    rewrite Htasks. cbn [or_else truthy].
    now rewrite (plain_tasks_lines _ Hplain).
  - intros res data v -> -> Htasks Hnot.
    destruct data; try discriminate.
    rewrite Htasks. unfold or_else.
    destruct v as [|vb|vt|vs|vitems|vfields];
      try (destruct (truthy _); reflexivity).
    now destruct (Hnot vitems).
  - intros res data items -> -> Htasks.
    destruct data; try discriminate.
    rewrite Htasks. cbn [or_else truthy].
    now destruct (all_some _).
Qed.

(** C5, where the code falls short of it.  The claim has every failure of
    the upstream call, a response that is not a success among them, end in
    the empty list.  [fetchClickUpContext] never looks at the status (no
    [res.ok] on lines 115-117, where [generateQuote] has one on line 83):
    when a response with a failure status carries a list of tasks, their
    lines are handed back as if the call had succeeded, and nothing is
    logged under "ClickUp fetch error:". *)
Theorem failure_status_read_as_success (w : world) (token team : string)
    (n : nat) (res : response) (data : json) (items : list json) :
  env w "CLICKUP_TOKEN" = Some token -> token <> "" ->
  env w "CLICKUP_TEAM_ID" = Some team -> team <> "" ->
  http w n (clickup_request w token team) = Resolves res ->
  ok res = false ->
  parsed res = Some data ->
  prop "tasks" data = Some (JArr items) ->
  items <> [] ->
  forallb plain_task (firstn 5 items) = true ->
  fetchClickUpContext w n
  = (Ok (map task_line (firstn 5 items)),
     [EvFetch (clickup_request w token team)], S n)
  /\ value (fetchClickUpContext w n) <> Ok [].
Proof.
  intros Ht Ht' Hi Hi' Hres _ Hp Htasks Hne Hplain.
  assert (fetchClickUpContext w n
          = (Ok (map task_line (firstn 5 items)),
             [EvFetch (clickup_request w token team)], S n)) as Hrun.
  { rewrite (fetchClickUpContext_run w token team n Ht Ht' Hi Hi'). cbv zeta.
    rewrite Hres, Hp. destruct data; try discriminate.
    rewrite Htasks. cbn [or_else truthy].
    now rewrite (plain_tasks_lines _ Hplain). }
  split; [exact Hrun|]. rewrite Hrun. cbn [value fst].
  destruct items as [|t items]; [now destruct Hne|]. discriminate.
Qed.

Lemma failure_status_read_as_success_witness :
  let task := JObj [("name", JStr "Ship v2");
                    ("status", JObj [("status", JStr "open")])] in
  let res := {| status := 500;
                parsed := Some (JObj [("tasks", JArr [task])]) |} in
  let w := answering (with_clickup unset) res in
  fetchClickUpContext w 0
  = (Ok (map task_line (firstn 5 [task])),
     [EvFetch (clickup_request w "pk_1" "42")], 1)
  /\ value (fetchClickUpContext w 0) <> Ok [].
Proof.
  cbv zeta.
  apply (failure_status_read_as_success
           (answering (with_clickup unset)
              {| status := 500;
                 parsed := Some (JObj [("tasks",
                                        JArr [JObj [("name", JStr "Ship v2");
                                                    ("status", JObj [("status", JStr "open")])]])]) |})
           "pk_1" "42" 0
           {| status := 500;
              parsed := Some (JObj [("tasks",
                                     JArr [JObj [("name", JStr "Ship v2");
                                                 ("status", JObj [("status", JStr "open")])]])]) |}
           (JObj [("tasks",
                   JArr [JObj [("name", JStr "Ship v2");
                               ("status", JObj [("status", JStr "open")])]])])
           [JObj [("name", JStr "Ship v2");
                  ("status", JObj [("status", JStr "open")])]]);
    try reflexivity; discriminate.
Defined.

(** *** Trimming *)

Lemma rev_onto_app (s acc : string) : rev_onto s acc = rev s ++ acc.
Proof.
  unfold rev. revert acc. induction s as [|c s IH]; intros acc; [reflexivity|].
  cbn [rev_onto]. rewrite IH, (IH (String c "")). now rewrite app_assoc.
Qed.

Lemma rev_cons (c : ascii) (s : string) : rev (String c s) = rev s ++ String c "".
Proof. unfold rev at 1. cbn [rev_onto]. apply rev_onto_app. Qed.

Lemma rev_app (a b : string) : rev (a ++ b) = rev b ++ rev a.
Proof.
  induction a as [|c a IH]; [now rewrite app_nil_r|].
  change (String c a ++ b) with (String c (a ++ b)).
  now rewrite !rev_cons, IH, app_assoc.
Qed.

Lemma rev_rev (s : string) : rev (rev s) = s.
Proof.
  induction s as [|c s IH]; [reflexivity|].
  now rewrite rev_cons, rev_app, IH.
Qed.

Lemma length_rev (s : string) : String.length (rev s) = String.length s.
Proof.
  induction s as [|c s IH]; [reflexivity|].
  rewrite rev_cons, length_app, IH. cbn. lia.
Qed.

Lemma blank_app (x y : string) : blank x -> blank y -> blank (x ++ y).
Proof.
  induction 1 as [|w s Hw Hlen _ IH]; intros Hy; [exact Hy|].
  rewrite app_assoc. constructor; auto.
Qed.

Lemma blank_one (w : string) :
  w <> "" -> ws_len w = String.length w -> blank w.
Proof.
  intros Hw Hlen. rewrite <- (app_nil_r w). now constructor; [| |constructor].
Qed.

(** The white-space character a text starts with, cut off. *)
Lemma ws_len_split (s : string) (k : nat) :
  ws_len s = S k ->
  exists w, s = w ++ drop (S k) s
            /\ String.length w = S k /\ ws_len w = S k.
Proof.
  destruct s as [|a [|b [|c s]]]; cbn [ws_len]; [discriminate| | |].
  - destruct (ws1 _) eqn:E1; intros [= <-].
    exists (String a ""). cbn [ws_len]. now rewrite E1.
  - destruct (ws1 _) eqn:E1; [|destruct (ws2 _ _) eqn:E2]; intros [= <-].
    + exists (String a ""). cbn [ws_len]. now rewrite E1.
    + exists (String a (String b "")). cbn [ws_len]. now rewrite E1, E2.
  - destruct (ws1 _) eqn:E1;
      [|destruct (ws2 _ _) eqn:E2; [|destruct (ws3 _ _ _) eqn:E3]];
      intros [= <-].
    + exists (String a ""). cbn [ws_len]. now rewrite E1.
    + exists (String a (String b "")). cbn [ws_len]. now rewrite E1, E2.
    + exists (String a (String b (String c ""))). cbn [ws_len].
      now rewrite E1, E2, E3.
Qed.

(** The same at the end of a text, read back to front. *)
Lemma ws_len_rev_split (s : string) (k : nat) :
  ws_len_rev s = S k ->
  exists w, s = w ++ drop (S k) s
            /\ String.length w = S k /\ ws_len (rev w) = S k.
Proof.
  destruct s as [|c [|b [|a s]]]; cbn [ws_len_rev]; [discriminate| | |].
  - destruct (ws1 _) eqn:E1; intros [= <-].
    exists (String c ""). cbn. now rewrite E1.
  - destruct (ws1 (nat_of_ascii c)) eqn:E1; [|destruct (ws2 _ _) eqn:E2];
      intros [= <-].
    + exists (String c ""). cbn. now rewrite E1.
    + exists (String c (String b "")). cbn [rev rev_onto ws_len drop String.length append].
      destruct (ws1 (nat_of_ascii b)) eqn:Eb.
      * unfold ws2 in E2. unfold ws1 in Eb.
        apply andb_prop in E2 as [E2 _]. apply Nat.eqb_eq in E2.
        rewrite E2 in Eb. discriminate Eb.
      * now rewrite E2.
  - destruct (ws1 (nat_of_ascii c)) eqn:E1;
      [|destruct (ws2 _ _) eqn:E2; [|destruct (ws3 _ _ _) eqn:E3]];
      intros [= <-].
    + exists (String c ""). cbn. now rewrite E1.
    + exists (String c (String b "")). cbn [rev rev_onto ws_len drop String.length append].
      destruct (ws1 (nat_of_ascii b)) eqn:Eb.
      * unfold ws2 in E2. unfold ws1 in Eb.
        apply andb_prop in E2 as [E2 _]. apply Nat.eqb_eq in E2.
        rewrite E2 in Eb. discriminate Eb.
      * now rewrite E2.
    + exists (String c (String b (String a ""))).
      cbn [rev rev_onto ws_len drop String.length append].
      assert (ws1 (nat_of_ascii a) = false /\ ws2 (nat_of_ascii a) (nat_of_ascii b) = false)
        as [Ea Eab].
      { unfold ws3 in E3. unfold ws1, ws2.
        destruct (Nat.eqb (nat_of_ascii a) 225) eqn:A1; [apply Nat.eqb_eq in A1; now rewrite A1|].
        destruct (Nat.eqb (nat_of_ascii a) 226) eqn:A2; [apply Nat.eqb_eq in A2; now rewrite A2|].
        destruct (Nat.eqb (nat_of_ascii a) 227) eqn:A3; [apply Nat.eqb_eq in A3; now rewrite A3|].
        destruct (Nat.eqb (nat_of_ascii a) 239) eqn:A4; [apply Nat.eqb_eq in A4; now rewrite A4|].
        discriminate E3. }
      now rewrite Ea, Eab, E3.
Qed.

Lemma drop_app_length (w r : string) (k : nat) :
  String.length w = k -> drop k (w ++ r) = r.
Proof.
  revert k. induction w as [|c w IH]; intros k <-; [reflexivity|].
  cbn. now apply IH.
Qed.

Lemma strip_start_spec (fuel : nat) :
  forall s, exists l, s = l ++ strip ws_len fuel s /\ blank l.
Proof.
  induction fuel as [|fuel IH]; intros s; cbn [strip].
  - exists "". split; [reflexivity | constructor].
  - destruct (ws_len s) as [|k] eqn:E.
    + exists "". split; [reflexivity | constructor].
    + destruct (ws_len_split s k E) as (w & Hs & Hlen & Hw).
      destruct (IH (drop (S k) s)) as (l & Hl & Hb).
      exists (w ++ l). split.
      * rewrite app_assoc, <- Hl. exact Hs.
      * constructor; [destruct w; [discriminate|discriminate] | congruence | exact Hb].
Qed.

Lemma strip_end_spec (fuel : nat) :
  forall s, exists l, s = l ++ strip ws_len_rev fuel s /\ blank (rev l).
Proof.
  induction fuel as [|fuel IH]; intros s; cbn [strip].
  - exists "". split; [reflexivity | constructor].
  - destruct (ws_len_rev s) as [|k] eqn:E.
    + exists "". split; [reflexivity | constructor].
    + destruct (ws_len_rev_split s k E) as (w & Hs & Hlen & Hw).
      destruct (IH (drop (S k) s)) as (l & Hl & Hb).
      exists (w ++ l). split.
      * rewrite app_assoc, <- Hl. exact Hs.
      * rewrite rev_app. apply blank_app; [exact Hb|].
        apply blank_one.
        -- intros H. apply (f_equal String.length) in H.
           rewrite length_rev, Hlen in H. discriminate H.
        -- now rewrite length_rev, Hlen.
Qed.

Lemma strip_done (len : string -> nat) :
  (forall s k, len s = S k -> String.length (drop (S k) s) < String.length s) ->
  forall fuel s, String.length s <= fuel -> len (strip len fuel s) = 0.
Proof.
  intros Hlen. induction fuel as [|fuel IH]; intros s Hs; cbn [strip].
  - destruct (len s) as [|k] eqn:E; [reflexivity|].
    specialize (Hlen s k E). lia.
  - destruct (len s) as [|k] eqn:E; [exact E|].
    apply IH. specialize (Hlen s k E). lia.
Qed.

Lemma ws_len_shrinks (s : string) (k : nat) :
  ws_len s = S k -> String.length (drop (S k) s) < String.length s.
Proof.
  intros E. destruct (ws_len_split s k E) as (w & Hs & Hlen & _).
  rewrite Hs at 2. rewrite length_app. lia.
Qed.

Lemma ws_len_rev_shrinks (s : string) (k : nat) :
  ws_len_rev s = S k -> String.length (drop (S k) s) < String.length s.
Proof.
  intros E. destruct (ws_len_rev_split s k E) as (w & Hs & Hlen & _).
  rewrite Hs at 2. rewrite length_app. lia.
Qed.

(** Cutting the end of a text does not bring white space to its front. *)
Lemma ws_len_prefix (p q : string) : ws_len (p ++ q) = 0 -> ws_len p = 0.
Proof.
  destruct p as [|a [|b [|c p]]]; [reflexivity| | |].
  - destruct q as [|b [|c q]]; cbn [append ws_len];
      destruct (ws1 _); try discriminate; reflexivity.
  - destruct q as [|c q]; cbn [append ws_len];
      destruct (ws1 _); try discriminate;
      destruct (ws2 _ _); try discriminate; reflexivity.
  - cbn [append ws_len]. exact (fun H => H).
Qed.

(** [trim] cuts a run of white space off each end and leaves none there. *)
Lemma trim_spec (s : string) :
  exists l r,
    s = l ++ trim s ++ r /\ blank l /\ blank r
    /\ ws_len (trim s) = 0 /\ ws_len_rev (rev (trim s)) = 0.
Proof.
  unfold trim, trimEnd, trimStart.
  destruct (strip_start_spec (String.length s) s) as (l & Hl & Hbl).
  set (x := strip ws_len (String.length s) s) in *.
  destruct (strip_end_spec (String.length x) (rev x)) as (r & Hr & Hbr).
  set (y := strip ws_len_rev (String.length x) (rev x)) in *.
  assert (x = rev y ++ rev r) as Hx.
  { rewrite <- (rev_rev x), Hr. apply rev_app. }
  exists l, (rev r). repeat split; [congruence | exact Hbl | exact Hbr | |].
  - apply (ws_len_prefix _ (rev r)). rewrite <- Hx. unfold x.
    apply (strip_done ws_len ws_len_shrinks). lia.
  - rewrite rev_rev. unfold y.
    apply (strip_done ws_len_rev ws_len_rev_shrinks). now rewrite length_rev.
Qed.

(** *** Sanitization *)

Lemma concat_cons (x : string) (xs : list string) :
  String.concat "" (x :: xs) = x ++ String.concat "" xs.
Proof. destruct xs; cbn; [now rewrite app_nil_r | reflexivity]. Qed.

Lemma split_go_acc (t : string) (s : string) :
  forall (k : nat) (acc : string),
    String.concat "" (split_go t k acc s)
    = acc ++ String.concat "" (split_go t k "" s).
Proof.
  induction s as [|c r IH]; intros k acc.
  - cbn. now rewrite app_nil_r.
  - cbn [split_go]. destruct k as [|k]; [|apply IH].
    destruct (String.prefix t (String c r)).
    + now rewrite !concat_cons.
    + rewrite IH, (IH 0 ("" ++ String c "")). now rewrite app_assoc.
Qed.

(** [remove] by its equations. *)
Lemma remove_nil (t : string) : remove t "" = "".
Proof. now destruct t. Qed.

Lemma remove_miss (t : string) (c : ascii) (s : string) :
  String.prefix t (String c s) = false ->
  remove t (String c s) = String c (remove t s).
Proof.
  intros H. destruct t as [|c0 t]; [discriminate|].
  unfold remove, join, split. cbn [split_go]. rewrite H.
  now rewrite split_go_acc.
Qed.

Lemma split_go_skip (t x s : string) (acc : string) :
  split_go t (String.length x) acc (x ++ s) = split_go t 0 acc s.
Proof. induction x as [|c x IH]; [reflexivity | exact IH]. Qed.

Lemma remove_hit (t s : string) : t <> "" -> remove t (t ++ s) = remove t s.
Proof.
  destruct t as [|c t]; [now intros []|]. intros _.
  unfold remove, join, split.
  change (String c t ++ s) with (String c (t ++ s)). cbn [split_go].
  change (String c (t ++ s)) with (String c t ++ s).
  rewrite prefix_refl_app.
  replace (String.length (String c t) - 1) with (String.length t) by (cbn; lia).
  now rewrite split_go_skip, concat_cons.
Qed.

Lemma prefix_cons (a b : ascii) (s1 s2 : string) :
  String.prefix (String a s1) (String b s2)
  = if ascii_dec a b then String.prefix s1 s2 else false.
Proof. reflexivity. Qed.

Lemma prefix_split (t s : string) :
  String.prefix t s = true -> exists r, s = t ++ r.
Proof.
  revert s. induction t as [|c t IH]; intros s H.
  - now exists s.
  - destruct s as [|c' s]; [discriminate|]. cbn in H.
    destruct (ascii_dec c c') as [<-|]; [|discriminate].
    destruct (IH s H) as [r ->]. now exists r.
Qed.

Lemma remove_is_removal (t : string) :
  t <> "" -> forall s, removal t s (remove t s).
Proof.
  intros Ht s.
  remember (String.length s) as n eqn:Hn. revert s Hn.
  induction n as [n IH] using lt_wf_ind. intros s ->.
  destruct s as [|c s]; [rewrite remove_nil; constructor|].
  destruct (String.prefix t (String c s)) eqn:P.
  - destruct (prefix_split _ _ P) as [r E]. rewrite E, remove_hit by exact Ht.
    constructor. apply (IH (String.length r)); [|reflexivity].
    rewrite E, length_app. destruct t; [now elim Ht | cbn; lia].
  - rewrite remove_miss by exact P. constructor; [exact P|].
    apply (IH (String.length s)); [cbn; lia | reflexivity].
Qed.

Lemma prefix_app_l (t x y : string) :
  String.prefix t x = true -> String.prefix t (x ++ y) = true.
Proof.
  revert x. induction t as [|c t IH]; intros x H; [now destruct (x ++ y)|].
  destruct x as [|c' x]; [discriminate|]. cbn in H |- *.
  destruct (ascii_dec c c'); [now apply IH | discriminate].
Qed.

Lemma prefix_app_cases (t x y : string) :
  String.prefix t (x ++ y) = true ->
  String.prefix t x = true \/ String.prefix x t = true.
Proof.
  revert x. induction t as [|c t IH]; intros x H.
  - left. now destruct x.
  - destruct x as [|c' x]; [now right|]. cbn in H |- *.
    destruct (ascii_dec c c') as [<-|]; [|discriminate].
    destruct (ascii_dec c c) as [_|ne]; [|now elim ne]. now apply IH.
Qed.

Lemma includes_cons (t : string) (c : ascii) (s : string) :
  includes t (String c s) = String.prefix t (String c s) || includes t s.
Proof. reflexivity. Qed.

Lemma includes_app_r (t x y : string) :
  includes t x = true -> includes t (x ++ y) = true.
Proof.
  induction x as [|c x IH].
  - cbn. rewrite orb_false_r. intros H. destruct t; [|discriminate].
    now destruct y.
  - change (String c x ++ y) with (String c (x ++ y)). rewrite !includes_cons.
    intros H. apply orb_prop in H as [H|H].
    + change (String c (x ++ y)) with (String c x ++ y).
      now rewrite (prefix_app_l _ _ _ H).
    + rewrite (IH H). apply orb_true_r.
Qed.

Lemma absent_app (t x y : string) :
  includes t (x ++ y) = false -> includes t x = false /\ includes t y = false.
Proof.
  intros H. split.
  - destruct (includes t x) eqn:E; [|reflexivity].
    now rewrite (includes_app_r _ _ y E) in H.
  - destruct (includes t y) eqn:E; [|reflexivity].
    now rewrite (includes_app_l _ x _ E) in H.
Qed.

Lemma remove_absent (t s : string) :
  t <> "" -> includes t s = false -> remove t s = s.
Proof.
  intros Ht. induction s as [|c s IH]; intros H; [apply remove_nil|].
  rewrite includes_cons in H. apply orb_false_elim in H as [P H].
  now rewrite (remove_miss _ _ _ P), (IH H).
Qed.

(** A token cannot begin inside a text without [<], nor run across the
    [<] that follows a text it does not begin. *)
Lemma prefix_before_lt (tl x r : string) :
  no_lt tl = true ->
  String.prefix tl (x ++ String "<" r) = true -> String.prefix tl x = true.
Proof.
  revert x. induction tl as [|c tl IH]; intros x Hlt H; [now destruct x|].
  cbn in Hlt. apply andb_prop in Hlt as [Hc Hlt].
  destruct x as [|c' x].
  - change ("" ++ String "<" r) with (String "<" r) in H.
    rewrite prefix_cons in H.
    destruct (ascii_dec c "<") as [->|]; [discriminate Hc | discriminate H].
  - change (String c' x ++ String "<" r) with (String c' (x ++ String "<" r)) in H.
    rewrite prefix_cons in H |- *.
    destruct (ascii_dec c c'); [now apply IH | discriminate].
Qed.

Lemma includes_past_plain (tl x y : string) :
  no_lt x = true ->
  includes (String "<" tl) (x ++ y) = includes (String "<" tl) y.
Proof.
  induction x as [|c x IH]; intros H; [reflexivity|].
  cbn in H. apply andb_prop in H as [Hc H].
  change (String c x ++ y) with (String c (x ++ y)).
  rewrite includes_cons, (IH H), prefix_cons.
  destruct (ascii_dec "<" c) as [<-|]; [discriminate Hc | reflexivity].
Qed.

Lemma tokens_shape (t : string) :
  In t tokens -> exists tl, t = String "<" tl /\ no_lt tl = true.
Proof.
  intros H. cbn in H.
  repeat (destruct H as [<-|H]; [eexists; split; reflexivity|]).
  destruct H.
Qed.

Lemma tokens_apart (t1 t2 : string) :
  In t1 tokens -> In t2 tokens -> t1 <> t2 -> String.prefix t1 t2 = false.
Proof.
  intros H1 H2 Hne. cbn in H1, H2.
  repeat (destruct H1 as [<-|H1]);
    try (now destruct H1);
    repeat (destruct H2 as [<-|H2]);
    try (now destruct H2);
    try reflexivity; now elim Hne.
Qed.

Lemma token_nonempty (t : string) : In t tokens -> t <> "".
Proof. intros H. now destruct (tokens_shape t H) as (tl & -> & _). Qed.

Lemma token_free_absent (s t : string) :
  token_free s = true -> In t tokens -> includes t s = false.
Proof.
  intros H Ht. unfold token_free in H. rewrite forallb_forall in H.
  specialize (H t Ht). now destruct (includes t s).
Qed.

(** No token begins inside [a] when [a ++ b] is free of it and a token
    follows [a]. *)
Lemma no_match_before (t' t a b : string) :
  In t' tokens -> In t tokens ->
  includes t' (a ++ b) = false ->
  forall c a', a = String c a' -> String.prefix t' (a ++ t ++ b) = false.
Proof.
  intros Ht' Ht Hfree c a' ->.
  destruct (tokens_shape t' Ht') as (tl' & -> & Hlt').
  destruct (tokens_shape t Ht) as (tl & -> & _).
  destruct (String.prefix _ _) eqn:P; [|reflexivity].
  change ((String c a' ++ String "<" tl ++ b))
    with (String c (a' ++ String "<" (tl ++ b))) in P.
  rewrite prefix_cons in P. destruct (ascii_dec "<" c) as [<-|]; [|discriminate].
  apply (prefix_before_lt _ _ _ Hlt') in P.
  assert (String.prefix (String "<" tl') (String "<" a' ++ b) = true) as Q.
  { apply prefix_app_l. rewrite prefix_cons.
    destruct (ascii_dec "<" "<") as [_|ne]; [exact P|now elim ne]. }
  apply includes_prefix in Q. now rewrite Q in Hfree.
Qed.

Lemma absent_around (t' t a b : string) :
  In t' tokens -> In t tokens -> t' <> t ->
  includes t' (a ++ b) = false -> includes t' (a ++ t ++ b) = false.
Proof.
  intros Ht' Ht Hne. induction a as [|c a IH]; intros Hfree.
  - destruct (tokens_shape t Ht) as (tl & E & Hlt).
    destruct (tokens_shape t' Ht') as (tl' & E' & _).
    change ("" ++ t ++ b) with (t ++ b). change ("" ++ b) with b in Hfree.
    rewrite E at 1. change (String "<" tl ++ b) with (String "<" (tl ++ b)).
    rewrite includes_cons. apply orb_false_intro.
    + change (String "<" (tl ++ b)) with (String "<" tl ++ b). rewrite <- E.
      destruct (String.prefix t' (t ++ b)) eqn:P; [|reflexivity].
      apply prefix_app_cases in P as [P|P].
      * now rewrite (tokens_apart t' t Ht' Ht Hne) in P.
      * rewrite (tokens_apart t t' Ht Ht') in P; [discriminate|].
        intros ->. now elim Hne.
    + rewrite E'. rewrite includes_past_plain by exact Hlt. now rewrite <- E'.
  - pose proof Hfree as Hall.
    change (String c a ++ b) with (String c (a ++ b)) in Hfree.
    rewrite includes_cons in Hfree. apply orb_false_elim in Hfree as [_ Hfree].
    change (String c a ++ t ++ b) with (String c (a ++ t ++ b)).
    rewrite includes_cons. apply orb_false_intro; [|now apply IH].
    now apply (no_match_before t' t (String c a) b Ht' Ht Hall c a).
Qed.

Lemma remove_around (t a b : string) :
  In t tokens -> includes t (a ++ b) = false -> remove t (a ++ t ++ b) = a ++ b.
Proof.
  intros Ht. pose proof (token_nonempty t Ht) as Hne.
  induction a as [|c a IH]; intros Hfree.
  - change ("" ++ t ++ b) with (t ++ b).
    rewrite remove_hit by exact Hne. now apply remove_absent.
  - pose proof Hfree as Hall.
    change (String c a ++ b) with (String c (a ++ b)) in Hfree.
    rewrite includes_cons in Hfree. apply orb_false_elim in Hfree as [_ Hfree].
    change (String c a ++ t ++ b) with (String c (a ++ t ++ b)).
    rewrite remove_miss, (IH Hfree); [reflexivity|].
    now apply (no_match_before t t (String c a) b Ht Ht Hall c a).
Qed.

Lemma fold_absent (ts : list string) (s : string) :
  (forall t, In t ts -> remove t s = s) ->
  fold_left (fun cleaned t => remove t cleaned) ts s = s.
Proof.
  induction ts as [|t ts IH]; intros H; [reflexivity|].
  cbn [fold_left]. rewrite (H t (or_introl eq_refl)).
  apply IH. intros t' Ht'. apply H. now right.
Qed.

Lemma fold_one (ts : list string) (t s1 s2 : string) :
  In t ts ->
  (forall t', In t' ts -> t' <> t -> remove t' s1 = s1) ->
  (forall t', In t' ts -> remove t' s2 = s2) ->
  remove t s1 = s2 ->
  fold_left (fun cleaned t => remove t cleaned) ts s1 = s2.
Proof.
  intros Hin H1 H2 Ht. induction ts as [|t0 ts IH]; [destruct Hin|].
  cbn [fold_left]. destruct (string_dec t0 t) as [->|Hne].
  - rewrite Ht. apply fold_absent. intros t' Ht'. apply H2. now right.
  - rewrite (H1 t0 (or_introl eq_refl) Hne).
    destruct Hin as [E|Hin]; [now elim Hne|].
    apply IH; [exact Hin| |].
    + intros t' Ht'. apply H1. now right.
    + intros t' Ht'. apply H2. now right.
Qed.

(** C4. Cleaning removes the sentinel tokens one after the other, each by
    cutting out its literal matches from left to right, and trims the
    result: a run of white space goes from each end and none is left there.
    A text in which no token occurs is only trimmed; and when a token
    stands between two texts that, put together, hold no token, what comes
    out is the two texts put together, unchanged, and trimmed. *)
Theorem sanitize_removes_tokens :
  (forall raw : string,
     sanitize raw
     = trim (fold_left (fun cleaned t => remove t cleaned) tokens raw))
  /\ (forall t s : string, In t tokens -> removal t s (remove t s))
  /\ (forall s : string,
        exists l r,
          s = l ++ trim s ++ r /\ blank l /\ blank r
          /\ ws_len (trim s) = 0 /\ ws_len_rev (rev (trim s)) = 0)
  /\ (forall raw : string, token_free raw = true -> sanitize raw = trim raw)
  /\ (forall a b t : string,
        In t tokens ->
        token_free (a ++ b) = true ->
        sanitize (a ++ t ++ b) = trim (a ++ b)).
Proof.
  split; [reflexivity|]. split; [|split; [exact trim_spec|split]].
  - intros t s Ht. apply remove_is_removal. now apply token_nonempty.
  - intros raw Hfree. unfold sanitize. f_equal. apply fold_absent.
    intros t Ht. apply remove_absent; [now apply token_nonempty|].
    now apply token_free_absent.
  - intros a b t Ht Hfree. unfold sanitize. f_equal.
    apply (fold_one tokens t); [exact Ht| | |].
    + intros t' Ht' Hne. apply remove_absent; [now apply token_nonempty|].
      apply absent_around; try assumption. now apply token_free_absent.
    + intros t' Ht'. apply remove_absent; [now apply token_nonempty|].
      now apply token_free_absent.
    + apply remove_around; [exact Ht|]. now apply token_free_absent.
Qed.

Lemma sanitize_removes_tokens_witness :
  sanitize ("  Ship it." ++ "<|im_end|>" ++ " Today. ") = "Ship it. Today.".
Proof.
  destruct sanitize_removes_tokens as (_ & _ & _ & _ & H).
  rewrite (H "  Ship it." " Today. " "<|im_end|>");
    [reflexivity | cbn; tauto | reflexivity].
Defined.

(** Two fragments that only together spell a token: once the token between
    them is cut out, a later pass cuts out the one they form. *)
Example fragments_forming_a_token :
  sanitize ("<" ++ "<|begin_of_text|>" ++ "s>") = ""
  /\ token_free "<" = true /\ token_free "s>" = true
  /\ token_free ("<" ++ "s>") = false.
Proof. repeat split; reflexivity. Qed.

(* ================================================================= *)
(** ** Further properties of the code *)

Import Startup Notions.

(** *** More on [generateQuote] *)

(** One turn of the guarded loop, console lines included. *)
Lemma guarded_unfold (w : world) (prompt : string) (left : nat) (attempt : N)
    (lastErr : json) (n : nat) :
  try_catch (attempts w prompt (S left) attempt lastErr) on_error n
  = let req := gen_request w prompt in
    match http w n req with
    | Rejects =>
        (Ok None, [EvFetch req; EvConsole Error [AStr "AI error:"; AExn FetchFailed]], S n)
    | Resolves res =>
        if ok res then
          match raw_content (data_of res) with
          | JStr s => (Ok (Some (sanitize s)), [EvFetch req], S n)
          | _ =>
              (Ok None, [EvFetch req; EvConsole Error [AStr "AI error:"; AExn TypeError]],
               S n)
          end
        else if (status res =? 429)%N then
          let waitMs := (600 * (attempt + 1))%N in
          let next :=
            try_catch
              (attempts w prompt left (attempt + 1)%N (error_message (data_of res) res))
              on_error (S n) in
          (value next,
           EvFetch req
           :: EvConsole Warn
                [AStr ("Rate limited (429). Retrying in " ++ dec_N waitMs ++ "ms...")]
           :: EvDelay waitMs :: events next,
           snd next)
        else
          (Ok None,
           [EvFetch req;
            EvConsole Error [AStr "OpenAI error:"; AVal (error_message (data_of res) res)]],
           S n)
    end.
Proof.
  unfold try_catch. rewrite attempts_S. cbv zeta.
  destruct (http w n (gen_request w prompt)) as [|res]; [reflexivity|].
  destruct (ok res); [destruct (raw_content (data_of res)); reflexivity|].
  destruct (status res =? 429)%N; [|reflexivity].
  destruct (attempts w prompt left _ _ (S n)) as [[[a|e] evs] n']; [reflexivity|].
  cbn. reflexivity.
Qed.

(** The fetch counter moves by the number of requests made. *)
Lemma guarded_counter (w : world) (prompt : string) (left : nat) :
  forall (attempt : N) (lastErr : json) (n : nat),
    let this := try_catch (attempts w prompt left attempt lastErr) on_error n in
    snd this = n + length (filter is_fetch (events this)).
Proof.
  induction left as [|left IH]; intros attempt lastErr n this; subst this.
  - rewrite guarded_exhausted. cbn. lia.
  - rewrite guarded_unfold. cbv zeta.
    destruct (http w n (gen_request w prompt)) as [|res]; [cbn; lia|].
    destruct (ok res); [destruct (raw_content (data_of res)); cbn; lia|].
    destruct (status res =? 429)%N; [|cbn; lia].
    cbn [snd events fst filter is_fetch length].
    rewrite (IH _ _ (S n)). lia.
Qed.

Lemma generateQuote_asks (w : world) (ctx : list string) (n : nat) :
  let out := generateQuote w ctx n in
  let asked := length (filter is_fetch (events out)) in
  (exists rest, events out = EvFetch (gen_request w (buildPrompt ctx)) :: rest)
  /\ 1 <= asked <= 3
  /\ snd out = n + asked.
Proof.
  cbv zeta. unfold generateQuote.
  pose proof (guarded_fetches w (buildPrompt ctx) 3 0 (JStr "") n) as [Hmax _].
  pose proof (guarded_counter w (buildPrompt ctx) 3 0 (JStr "") n) as Hcount.
  cbv zeta in Hmax, Hcount. split; [|split; [split; [|exact Hmax]|exact Hcount]].
  - rewrite guarded_unfold. cbv zeta.
    destruct (http w n _) as [|res]; [eexists; reflexivity|].
    destruct (ok res); [destruct (raw_content _); eexists; reflexivity|].
    destruct (status res =? 429)%N; eexists; reflexivity.
  - rewrite guarded_unfold. cbv zeta.
    destruct (http w n _) as [|res]; [cbn; lia|].
    destruct (ok res); [destruct (raw_content _); cbn; lia|].
    destruct (status res =? 429)%N; cbn; lia.
Qed.

(** X1. Every call of [generateQuote] opens with a request to the endpoint:
    no setting, and no missing credential, keeps it from asking.  It makes
    between one and three requests, and the fetch counter moves by their
    number. *)
Theorem generateQuote_always_asks (w : world) (ctx : list string) (n : nat) :
  let out := generateQuote w ctx n in
  let asked := length (filter is_fetch (events out)) in
  (exists rest, events out = EvFetch (gen_request w (buildPrompt ctx)) :: rest)
  /\ 1 <= asked <= 3
  /\ snd out = n + asked.
Proof.
  cbv zeta. unfold generateQuote.
  pose proof (guarded_fetches w (buildPrompt ctx) 3 0 (JStr "") n) as [Hmax _].
  pose proof (guarded_counter w (buildPrompt ctx) 3 0 (JStr "") n) as Hcount.
  cbv zeta in Hmax, Hcount.
  rewrite guarded_unfold in *. cbv zeta in *.
  destruct (http w n (gen_request w (buildPrompt ctx))) as [|res].
  - split; [eexists; reflexivity|]. split; [cbn; lia | exact Hcount].
  - destruct (ok res).
    + destruct (raw_content (data_of res));
        (split; [eexists; reflexivity|]); (split; [cbn; lia | exact Hcount]).
    + destruct (status res =? 429)%N;
        (split; [eexists; reflexivity|]);
        (split; [split; [cbn; lia | exact Hmax] | exact Hcount]).
Qed.

Lemma str_or_nonempty (o : option string) (d : string) :
  d <> "" -> str_or o d <> "".
Proof.
  intros Hd. destruct o as [s|]; cbn; [|exact Hd].
  destruct (String.eqb_spec s ""); [exact Hd | assumption].
Qed.

Lemma num_or_truthy (a d : number) : num_truthy d = true -> num_truthy (num_or a d) = true.
Proof. intros Hd. unfold num_or. now destruct (num_truthy a) eqn:E. Qed.

(** X2. Whatever the environment holds, the object that [generateQuote]
    hands to [JSON.stringify] for the chat request goes by POST to a
    non-empty address, names a non-empty model and carries the prompt, and
    its temperature and token budget are never NaN and never zero.  They
    can be infinite: an [AI_MAX_TOKENS] or [AI_TEMPERATURE] that [Number]
    reads as an infinity is handed on as that infinity.  With no API key
    set the request still goes out, under the header [Bearer undefined]. *)
Theorem gen_request_wellformed (w : world) (prompt : string) :
  let r := gen_request w prompt in
  url r <> "" /\ meth r = POST
  /\ (exists m t k,
        payload r = ChatBody m prompt t k
        /\ m <> "" /\ num_truthy t = true /\ num_truthy k = true
        /\ t <> NaN /\ k <> NaN
        /\ (forall s neg, env w "AI_TEMPERATURE" = Some s ->
                          Number s = Infinity neg -> t = Infinity neg)
        /\ (forall s neg, env w "AI_MAX_TOKENS" = Some s ->
                          Number s = Infinity neg -> k = Infinity neg))
  /\ (AI_API_KEY w = None ->
      In ("Authorization", "Bearer undefined") (headers r)).
Proof.
  cbv zeta. cbn [gen_request url meth payload headers].
  assert (forall a b, num_truthy b = true -> num_or a b <> NaN) as Hnan.
  { intros a b Hb H. pose proof (num_or_truthy a b Hb) as Ht.
    rewrite H in Ht. discriminate. }
  repeat split.
  - apply str_or_nonempty. discriminate.
  - exists (model w), (temperature w), (maxTokens w). repeat split.
    + apply str_or_nonempty. discriminate.
    + apply num_or_truthy. now vm_compute.
    + apply num_or_truthy. now vm_compute.
    + apply Hnan. now vm_compute.
    + apply Hnan. now vm_compute.
    + intros s neg Hs Hinf. unfold temperature, AI_TEMPERATURE.
      rewrite Hs. cbn [nullish]. now rewrite Hinf.
    + intros s neg Hs Hinf. unfold maxTokens, AI_MAX_TOKENS.
      rewrite Hs. cbn [nullish]. now rewrite Hinf.
  - intros H. unfold gen_headers. rewrite H. now left.
Qed.

Lemma gen_request_agree (w1 w2 : world) (prompt : string) :
  agree_but "LANGUAGE" w1 w2 -> gen_request w1 prompt = gen_request w2 prompt.
Proof.
  intros H. unfold gen_request, endpoint, model, temperature, maxTokens, gen_headers,
    AI_API_URL, AI_MODEL, AI_API_KEY, AI_MAX_TOKENS, AI_TEMPERATURE.
  now rewrite !(H _) by discriminate.
Qed.

Lemma guarded_agree (w1 w2 : world) (prompt : string) (left : nat) :
  agree_but "LANGUAGE" w1 w2 ->
  (forall n r, http w1 n r = http w2 n r) ->
  forall (attempt : N) (lastErr : json) (n : nat),
    try_catch (attempts w1 prompt left attempt lastErr) on_error n
    = try_catch (attempts w2 prompt left attempt lastErr) on_error n.
Proof.
  intros Henv Hhttp. induction left as [|left IH]; intros attempt lastErr n.
  - now rewrite !guarded_exhausted.
  - rewrite !guarded_unfold. cbv zeta.
    rewrite (gen_request_agree w1 w2 prompt Henv), Hhttp.
    destruct (http w2 n _) as [|res]; [reflexivity|].
    destruct (ok res); [reflexivity|].
    destruct (status res =? 429)%N; [|reflexivity].
    now rewrite IH.
Qed.

(** X3. The language setting never reaches the generation: two worlds that
    differ in LANGUAGE alone, and whose endpoint answers alike, send the
    same requests and get the same quote.  The setting only picks the
    fallback. *)
Theorem language_not_sent (w1 w2 : world) (ctx : list string) (n : nat) :
  agree_but "LANGUAGE" w1 w2 ->
  (forall n r, http w1 n r = http w2 n r) ->
  generateQuote w1 ctx n = generateQuote w2 ctx n.
Proof. intros Henv Hhttp. unfold generateQuote. now apply guarded_agree. Qed.

Lemma language_not_sent_witness :
  generateQuote (scripted (setenv "LANGUAGE" "MM" unset) [completion "Ship it."]) [] 0
  = generateQuote (scripted (setenv "LANGUAGE" "EN" unset) [completion "Ship it."]) [] 0.
Proof.
  apply language_not_sent.
  - intros k Hk. cbn. unfold setenv.
    destruct (String.eqb_spec k "LANGUAGE"); [contradiction | reflexivity].
  - reflexivity.
Defined.



Lemma waited_app (a b : list event) : waited (a ++ b) = (waited a + waited b)%N.
Proof.
  induction a as [|ev a IH]; [reflexivity|].
  cbn [app waited fold_right]. fold (waited (a ++ b)) (waited a).
  rewrite IH. destruct ev; lia.
Qed.

Lemma guarded_waits (w : world) (prompt : string) (left : nat) :
  forall (a : nat) (lastErr : json) (n : nat),
    let this :=
      try_catch (attempts w prompt left (N.of_nat a) lastErr) on_error n in
    (waited (events this) <= budget a left)%N
    /\ ((forall j, j < left -> limited (http w (j + n) (gen_request w prompt)) = true) ->
        waited (events this) = budget a left).
Proof.
  induction left as [|left IH]; intros a lastErr n this; subst this.
  - rewrite guarded_exhausted. cbn. split; [lia | reflexivity].
  - rewrite guarded_unfold. cbv zeta. cbn [budget].
    destruct (http w n (gen_request w prompt)) as [|res] eqn:E.
    + split; [cbn; lia|]. intros Hall.
      specialize (Hall 0 (Nat.lt_0_succ left)). cbn [Nat.add] in Hall.
      rewrite E in Hall. discriminate Hall.
    + destruct (ok res) eqn:K.
      * assert ((status res =? 429)%N = false) as L.
        { destruct (status res =? 429)%N eqn:L; [|reflexivity].
          now rewrite (limited_not_ok _ L) in K. }
        split.
        -- destruct (raw_content (data_of res)); cbn; lia.
        -- intros Hall. specialize (Hall 0 (Nat.lt_0_succ left)).
           cbn [Nat.add] in Hall. rewrite E in Hall. cbn in Hall. congruence.
      * destruct (status res =? 429)%N eqn:L.
        -- replace (N.of_nat a + 1)%N with (N.of_nat (S a)) by lia.
           destruct (IH (S a) (error_message (data_of res) res) (S n)) as [Hle Heq].
           cbn [events fst snd waited fold_right].
           fold (waited (events
                   (try_catch
                      (attempts w prompt left (N.of_nat (S a))
                         (error_message (data_of res) res)) on_error (S n)))).
           split; [lia|]. intros Hall. rewrite Heq; [reflexivity|].
           intros j Hj. replace (j + S n) with (S j + n) by lia. apply Hall. lia.
        -- split; [cbn; lia|]. intros Hall.
           specialize (Hall 0 (Nat.lt_0_succ left)). cbn [Nat.add] in Hall.
           rewrite E in Hall. cbn in Hall. congruence.
Qed.

(** X5. A call of [generateQuote] never spends more than 3600 ms in its
    waits, and spends exactly that when all three answers are 429: the last
    1800 ms are waited although no request follows them. *)
Theorem wait_budget (w : world) (ctx : list string) (n : nat) :
  let out := generateQuote w ctx n in
  (waited (events out) <= 3600)%N
  /\ ((forall j, j < 3 -> limited (answer w ctx n j) = true) ->
      waited (events out) = 3600%N).
Proof.
  cbv zeta. unfold generateQuote, answer.
  exact (guarded_waits w (buildPrompt ctx) 3 0 (JStr "") n).
Qed.

(** *** More on cleaning *)

Lemma removal_length (t s r : string) :
  removal t s r -> String.length r <= String.length s.
Proof.
  induction 1 as [|s r _ IH|c s r _ _ IH]; [cbn; lia | |cbn; lia].
  rewrite length_app. lia.
Qed.

Lemma units_join (s : string) : join "" (units s) = s.
Proof.
  induction s as [|c s IH]; [reflexivity|].
  cbn [units]. unfold join in *. now rewrite concat_cons, IH.
Qed.

Lemma remove_length (t s : string) :
  String.length (remove t s) <= String.length s.
Proof.
  destruct t as [|c t].
  - unfold remove, split. rewrite units_join. lia.
  - apply (removal_length (String c t)). now apply remove_is_removal.
Qed.

Lemma trim_length (s : string) : String.length (trim s) <= String.length s.
Proof.
  destruct (trim_spec s) as (l & r & Hs & _).
  rewrite Hs at 2. rewrite !length_app. lia.
Qed.

(** X6. Cleaning never makes a text longer: every pass only cuts. *)
Theorem sanitize_shrinks (raw : string) :
  String.length (sanitize raw) <= String.length raw.
Proof.
  unfold sanitize.
  assert (forall ts s,
            String.length (fold_left (fun cleaned t => remove t cleaned) ts s)
            <= String.length s) as Hfold.
  { induction ts as [|t ts IH]; intros s; cbn [fold_left]; [lia|].
    specialize (IH (remove t s)). pose proof (remove_length t s). lia. }
  pose proof (trim_length (fold_left (fun cleaned t => remove t cleaned) tokens raw)).
  specialize (Hfold tokens raw). lia.
Qed.

(** A white-space character holds no [<]. *)
Lemma ws_char_plain (w : string) :
  w <> "" -> ws_len w = String.length w -> no_lt w = true.
Proof.
  assert (forall c, (c =? "<")%char = true -> nat_of_ascii c = 60) as Hlt.
  { intros c H. apply Ascii.eqb_eq in H. now subst c. }
  assert (forall c, ws1 (nat_of_ascii c) = true -> (c =? "<")%char = false) as H1.
  { intros c H. destruct (c =? "<")%char eqn:E; [|reflexivity].
    rewrite (Hlt c E) in H. discriminate H. }
  assert (forall a b c,
            ws1 (nat_of_ascii a) = false ->
            ws2 (nat_of_ascii a) (nat_of_ascii b) = true
            \/ ws3 (nat_of_ascii a) (nat_of_ascii b) (nat_of_ascii c) = true ->
            (a =? "<")%char = false /\ (b =? "<")%char = false
            /\ (ws2 (nat_of_ascii a) (nat_of_ascii b) = false ->
                (c =? "<")%char = false)) as H23.
  { intros a b c _ H.
    destruct (a =? "<")%char eqn:Ea.
    { rewrite (Hlt a Ea) in H. destruct H as [H|H]; discriminate H. }
    destruct (b =? "<")%char eqn:Eb.
    { rewrite (Hlt b Eb) in H. unfold ws2, ws3 in H.
      rewrite !andb_false_r in H. cbn in H. destruct H as [H|H]; discriminate H. }
    repeat split. intros H2. destruct H as [H|H]; [congruence|].
    destruct (c =? "<")%char eqn:Ec; [|reflexivity].
    rewrite (Hlt c Ec) in H. unfold ws3 in H.
    rewrite !andb_false_r in H. cbn in H. discriminate H. }
  intros Hw. destruct w as [|a [|b [|c [|d w]]]]; [now elim Hw| | | |];
    cbn [ws_len String.length no_lt].
  - destruct (ws1 _) eqn:E1; [|discriminate]. intros _. now rewrite (H1 a E1).
  - destruct (ws1 _) eqn:E1; [discriminate|].
    destruct (ws2 _ _) eqn:E2; [|discriminate]. intros _.
    destruct (H23 a b a E1 (or_introl E2)) as (-> & -> & _). reflexivity.
  - destruct (ws1 _) eqn:E1; [discriminate|].
    destruct (ws2 _ _) eqn:E2; [discriminate|].
    destruct (ws3 _ _ _) eqn:E3; [|discriminate]. intros _.
    destruct (H23 a b c E1 (or_intror E3)) as (-> & -> & Hc).
    now rewrite (Hc E2).
  - destruct (ws1 _); [discriminate|].
    destruct (ws2 _ _); [discriminate|]. destruct (ws3 _ _ _); discriminate.
Qed.

Lemma no_lt_app (x y : string) :
  no_lt x = true -> no_lt y = true -> no_lt (x ++ y) = true.
Proof.
  induction x as [|c x IH]; intros Hx Hy; [exact Hy|].
  cbn in Hx |- *. apply andb_prop in Hx as [-> Hx]. now apply IH.
Qed.

Lemma blank_plain (s : string) : blank s -> no_lt s = true.
Proof.
  induction 1 as [|w s Hw Hlen _ IH]; [reflexivity|].
  apply no_lt_app; [now apply ws_char_plain | exact IH].
Qed.

Lemma plain_token_free (s : string) : no_lt s = true -> token_free s = true.
Proof.
  intros H. unfold token_free. apply forallb_forall. intros t Ht.
  destruct (tokens_shape t Ht) as (tl & -> & _).
  rewrite <- (app_nil_r s), (includes_past_plain tl s "" H). reflexivity.
Qed.

(** A white-space character is read as such whatever follows it. *)
Lemma ws_len_app (w s : string) :
  w <> "" -> ws_len w = String.length w -> ws_len (w ++ s) = String.length w.
Proof.
  intros Hw. destruct w as [|a [|b [|c [|d w]]]]; [now elim Hw| | | |];
    cbn [ws_len String.length append].
  - destruct (ws1 (nat_of_ascii a)) eqn:E1; [|discriminate]. intros _.
    destruct s as [|b [|c s]]; cbn [ws_len]; rewrite ?E1; reflexivity.
  - destruct (ws1 (nat_of_ascii a)) eqn:E1; [discriminate|].
    destruct (ws2 _ _) eqn:E2; [|discriminate]. intros _.
    destruct s as [|c s]; cbn [ws_len]; rewrite ?E1, ?E2; reflexivity.
  - destruct (ws1 (nat_of_ascii a)) eqn:E1; [discriminate|].
    destruct (ws2 _ _) eqn:E2; [discriminate|].
    destruct (ws3 _ _ _) eqn:E3; [|discriminate]. intros _.
    cbn [ws_len]. rewrite ?E1, ?E2, ?E3. reflexivity.
  - destruct (ws1 _); [discriminate|].
    destruct (ws2 _ _); [discriminate|]. destruct (ws3 _ _ _); discriminate.
Qed.

Lemma strip_blank (s : string) :
  blank s -> forall fuel, String.length s <= fuel -> strip ws_len fuel s = "".
Proof.
  induction 1 as [|w s Hw Hlen _ IH]; intros fuel Hfuel.
  - destruct fuel; reflexivity.
  - rewrite length_app in Hfuel.
    assert (0 < String.length w) as Hpos by (destruct w; [now elim Hw | cbn; lia]).
    destruct fuel as [|fuel]; [lia|]. cbn [strip].
    rewrite (ws_len_app w s Hw Hlen).
    destruct (String.length w) as [|k] eqn:E; [lia|].
    rewrite (drop_app_length w s (S k) E). apply IH. lia.
Qed.

Lemma trim_blank (s : string) : blank s -> trim s = "".
Proof.
  intros H. unfold trim, trimStart. now rewrite (strip_blank s H).
Qed.

(** X7. A completion made of white space alone is cleaned to the empty
    string, which [postDailyQuote] takes for no quote: the fallback text is
    used. *)
Theorem blank_completion (raw : string) :
  blank raw ->
  sanitize raw = ""
  /\ forall lang, quote_text lang (Some (sanitize raw)) = fallback_text lang.
Proof.
  intros H.
  assert (sanitize raw = "") as E.
  { unfold sanitize. rewrite fold_absent; [now apply trim_blank|].
    intros t Ht. apply remove_absent; [now apply token_nonempty|].
    apply token_free_absent; [|exact Ht].
    now apply plain_token_free, blank_plain. }
  split; [exact E|]. intros lang. rewrite E. now apply quote_text_fallback.
Qed.

Lemma blank_completion_witness : sanitize (" " ++ LF ++ "  ") = "".
Proof.
  apply blank_completion.
  apply (blank_ws " "); [discriminate | reflexivity|].
  apply (blank_ws LF); [discriminate | reflexivity|].
  apply (blank_ws " "); [discriminate | reflexivity|].
  apply (blank_one " "); [discriminate | reflexivity].
Defined.

(** *** More on [fetchClickUpContext] *)

(** X8. With both credentials set, [fetchClickUpContext] makes exactly one
    request and never a second: a GET of the team's tasks updated since 24
    hours (86,400,000 ms) before now, closed ones included, with the token
    itself as the Authorization header.  Whatever comes back, it prints at
    most one console line. *)
Theorem context_fetch_once (w : world) (token team : string) (n : nat) :
  env w "CLICKUP_TOKEN" = Some token -> token <> "" ->
  env w "CLICKUP_TEAM_ID" = Some team -> team <> "" ->
  let out := fetchClickUpContext w n in
  let req :=
    {| url := "https://api.clickup.com/api/v2/team/" ++ team
              ++ "/task?date_updated_gt=" ++ dec_Z (now w - 86400000)
              ++ "&include_closed=true";
       meth := GET;
       headers := [("Authorization", token)];
       payload := NoBody |} in
  io (events out) = [EvFetch req]
  /\ snd out = S n
  /\ length (console_lines (events out)) <= 1.
Proof.
  intros Ht Ht' Hi Hi'. cbv zeta.
  rewrite (fetchClickUpContext_run w token team n Ht Ht' Hi Hi'). cbv zeta.
  change (clickup_request w token team)
    with {| url := "https://api.clickup.com/api/v2/team/" ++ team
                   ++ "/task?date_updated_gt=" ++ dec_Z (now w - 86400000)
                   ++ "&include_closed=true";
            meth := GET;
            headers := [("Authorization", token)];
            payload := NoBody |}.
  destruct (http w n _) as [|res]; [cbn; repeat split; lia|].
  destruct (parsed res) as [data|]; [|cbn; repeat split; lia].
  destruct data; try (cbn; repeat split; lia);
    (destruct (or_else _ _); try (cbn; repeat split; lia);
     destruct (all_some _); cbn; repeat split; lia).
Qed.

Lemma context_fetch_once_witness :
  snd (fetchClickUpContext (offline (with_clickup unset)) 0) = 1.
Proof.
  apply (context_fetch_once (offline (with_clickup unset)) "pk_1" "42" 0);
    (reflexivity || discriminate).
Defined.

Lemma all_some_none {A : Type} (xs : list (option A)) :
  In None xs -> all_some xs = None.
Proof.
  induction xs as [|[x|] xs IH]; intros H; [destruct H| |reflexivity].
  destruct H as [H|H]; [discriminate H|]. cbn. now rewrite (IH H).
Qed.

Lemma firstn_app_exact {A : Type} (xs ys : list A) (k : nat) :
  length xs = k -> firstn k (xs ++ ys) = xs.
Proof.
  intros <-. rewrite firstn_app, Nat.sub_diag, firstn_all. cbn.
  apply List.app_nil_r.
Qed.

(** X9. Only the first five tasks count.  Whatever follows five proper
    tasks is never looked at, be it malformed; but one [null] among the
    first five costs all the lines. *)
Theorem only_first_five_tasks (w : world) (token team : string) (n : nat)
    (res : response) (fields : list (string * json)) :
  env w "CLICKUP_TOKEN" = Some token -> token <> "" ->
  env w "CLICKUP_TEAM_ID" = Some team -> team <> "" ->
  http w n (clickup_request w token team) = Resolves res ->
  parsed res = Some (JObj fields) ->
  (forall items rest,
     lookup "tasks" fields = Some (JArr (items ++ rest)) ->
     length items = 5 ->
     forallb plain_task items = true ->
     value (fetchClickUpContext w n) = Ok (map task_line items))
  /\ (forall items,
        lookup "tasks" fields = Some (JArr items) ->
        In JNull (firstn 5 items) ->
        value (fetchClickUpContext w n) = Ok []).
Proof.
  intros Ht Ht' Hi Hi' Hres Hbody.
  rewrite (fetchClickUpContext_run w token team n Ht Ht' Hi Hi'). cbv zeta.
  rewrite Hres, Hbody. cbn [prop]. split.
  - intros items rest -> Hlen Hplain. cbn [or_else truthy].
    rewrite (firstn_app_exact items rest 5 Hlen).
    now rewrite (plain_tasks_lines items Hplain).
  - intros items -> Hnull. cbn [or_else truthy].
    rewrite all_some_none; [reflexivity|].
    apply in_map_iff. exists JNull. split; [reflexivity | exact Hnull].
Qed.

Lemma only_first_five_tasks_witness :
  let task := JObj [("name", JStr "T"); ("status", JObj [("status", JStr "open")])] in
  let res :=
    {| status := 200;
       parsed := Some (JObj [("tasks",
                              JArr [task; task; task; task; task; JNull; JNum "7"])]) |} in
  value (fetchClickUpContext (answering (with_clickup unset) res) 0)
  = Ok (map task_line [task; task; task; task; task]).
Proof.
  cbv zeta.
  set (task := JObj [("name", JStr "T"); ("status", JObj [("status", JStr "open")])]).
  destruct (only_first_five_tasks
              (answering (with_clickup unset)
                 {| status := 200;
                    parsed := Some (JObj [("tasks",
                                           JArr [task; task; task; task; task;
                                                 JNull; JNum "7"])]) |})
              "pk_1" "42" 0 _ _ eq_refl ltac:(discriminate) eq_refl ltac:(discriminate)
              eq_refl eq_refl) as [H _].
  apply (H [task; task; task; task; task] [JNull; JNum "7"]); reflexivity.
Defined.

(** *** More on the prompt and on a run *)

Lemma includes_concat (x : string) (xs : list string) :
  In x xs -> includes x (String.concat "" xs) = true.
Proof.
  induction xs as [|y ys IH]; intros H; [destruct H|].
  rewrite concat_cons. destruct H as [->|H].
  - apply includes_prefix, prefix_refl_app.
  - apply includes_app_l. now apply IH.
Qed.

(** X10. Every context line stands in the prompt as it is, on a line of its
    own after a dash and a space. *)
Theorem buildPrompt_keeps_lines (lines : list string) (l : string) :
  In l lines -> includes ("- " ++ l ++ LF) (buildPrompt lines) = true.
Proof.
  intros H. destruct lines as [|l0 rest]; [destruct H|].
  rewrite buildPrompt_cons. apply includes_app_l, includes_app_r.
  unfold context_block. apply includes_app_l. apply (includes_app_l _ LF).
  apply includes_concat. apply in_map_iff. now exists l.
Qed.

Lemma buildPrompt_keeps_lines_witness :
  includes ("- " ++ "Task A" ++ LF) (buildPrompt ["Task B"; "Task A"]) = true.
Proof. apply buildPrompt_keeps_lines. cbn. tauto. Defined.

Lemma quote_text_given (lang s : string) : s <> "" -> quote_text lang (Some s) = s.
Proof.
  intros H. unfold quote_text. cbn [str_truthy tmpl].
  apply String.eqb_neq in H. now rewrite H.
Qed.

(** X11. A quote that came back non-empty is delivered as it is under the
    header, whatever the language setting: the fallback lines play no
    part. *)
Theorem quote_delivered_verbatim (w : world) (s : string) :
  generated w = Ok (Some s) ->
  s <> "" ->
  let evs := snd (run (postDailyQuote w)) in
  (forall t, In t (delivered evs) -> t = header ++ LF ++ s)
  /\ (USE_WEBHOOK w = true -> delivered evs = [header ++ LF ++ s]).
Proof.
  intros Hq Hs. cbv zeta. destruct (run_delivered w _ Hq) as [n ->].
  rewrite (quote_text_given _ _ Hs). split.
  - intros t Ht. destruct (deliver_delivered w s n) as [E|E];
      rewrite E in Ht; [destruct Ht|].
    destruct Ht as [<-|[]]. reflexivity.
  - intros Hw. rewrite deliver_webhook by exact Hw. cbv zeta.
    now destruct (http w n _).
Qed.

Lemma quote_delivered_verbatim_witness :
  delivered
    (snd (run (postDailyQuote
                 (scripted (setenv "DISCORD_WEBHOOK_URL" hook unset)
                           [completion "Ship it."]))))
  = [header ++ LF ++ "Ship it."].
Proof.
  apply (quote_delivered_verbatim
           (scripted (setenv "DISCORD_WEBHOOK_URL" hook unset) [completion "Ship it."])
           "Ship it.");
    (reflexivity || discriminate).
Defined.

Lemma filter_fetch_app (a b : list event) :
  length (filter is_fetch (a ++ b))
  = length (filter is_fetch a) + length (filter is_fetch b).
Proof. now rewrite filter_app, List.length_app. Qed.

Lemma context_fetches (w : world) (n : nat) :
  length (filter is_fetch (events (fetchClickUpContext w n))) <= 1.
Proof.
  destruct (str_truthy (env w "CLICKUP_TOKEN")) eqn:Ht.
  2:{ rewrite (fetchClickUpContext_unconfigured w n (or_introl Ht)). cbn. lia. }
  destruct (str_truthy (env w "CLICKUP_TEAM_ID")) eqn:Hi.
  2:{ rewrite (fetchClickUpContext_unconfigured w n (or_intror Hi)). cbn. lia. }
  apply str_truthy_inv in Ht as (token & Ht & Ht').
  apply str_truthy_inv in Hi as (team & Hi & Hi').
  rewrite (fetchClickUpContext_run w token team n Ht Ht' Hi Hi'). cbv zeta.
  destruct (http w n _) as [|res]; [cbn; lia|].
  destruct (parsed res) as [data|]; [|cbn; lia].
  destruct data; try (cbn; lia);
    (destruct (or_else _ _); try (cbn; lia); destruct (all_some _); cbn; lia).
Qed.

Lemma deliver_fetches (w : world) (text : string) (n : nat) :
  length (filter is_fetch (events (deliver w text n)))
  = if USE_WEBHOOK w then 1 else 0.
Proof.
  destruct (USE_WEBHOOK w) eqn:H.
  - rewrite deliver_webhook by exact H. cbv zeta. now destruct (http w n _).
  - rewrite deliver_bot by exact H. cbv zeta.
    destruct (channels w _) as [|[c|]]; try reflexivity.
    destruct (ctype c =? GuildText)%N; [|reflexivity].
    now destruct (accepts c _).
Qed.

(** X12. A run of [postDailyQuote] makes at most five HTTP requests (one
    for the context, three for the quote, one for the webhook), at most
    four in bot-client mode, and at least one: the generation is always
    tried. *)
Theorem run_request_bound (w : world) :
  let asked := length (filter is_fetch (snd (run (postDailyQuote w)))) in
  1 <= asked <= 5 /\ (USE_WEBHOOK w = false -> asked <= 4).
Proof.
  cbv zeta. destruct (postDailyQuote_run w) as (ctx & q & _ & _ & _ & ->).
  cbn [snd]. rewrite !filter_fetch_app.
  pose proof (context_fetches w 0) as Hc.
  destruct (generateQuote_asks w ctx (snd (fetchClickUpContext w 0)))
    as (_ & Hg & _).
  rewrite deliver_fetches. destruct (USE_WEBHOOK w); split; try lia; intros; lia.
Qed.

Lemma fetchClickUpContext_only (P : event -> Prop) (w : world) :
  (forall l args, P (EvConsole l args)) ->
  (forall token team, P (EvFetch (clickup_request w token team))) ->
  only P (fetchClickUpContext w).
Proof.
  intros Hc Hf. unfold fetchClickUpContext.
  destruct (negb _ || negb _); [auto with io|].
  assert (forall l args, only P (console l args)) as Hconsole
    by (intros; now apply only_emit).
  apply only_try; [|intros e; apply only_bind; auto with io].
  apply only_bind; [apply only_fetch, Hf|]. intros res.
  apply only_bind; [unfold json_of; auto with io|]. intros data.
  apply only_bind; [destruct data; cbn [tasks_of]; auto with io|]. intros x.
  apply only_bind.
  - unfold first_five. destruct (or_else x (JArr [])); auto with io.
  - intros tasks. apply only_mapM. intros t.
    destruct t; cbn [describe]; auto 6 with io.
Qed.

Lemma prompts_app (a b : list event) : prompts (a ++ b) = (prompts a ++ prompts b)%list.
Proof. apply flat_map_app. Qed.

Lemma prompts_none (evs : list event) :
  Forall (fun ev => match ev with
                    | EvFetch r => forall m p t k, payload r <> ChatBody m p t k
                    | _ => True
                    end) evs ->
  prompts evs = [].
Proof.
  induction 1 as [|ev evs H _ IH]; [reflexivity|].
  cbn [prompts flat_map]. fold (prompts evs). rewrite IH.
  destruct ev as [r| | | |]; try reflexivity.
  destruct (payload r) as [|m p t k|c] eqn:E; try reflexivity.
  now elim (H m p t k).
Qed.

Lemma prompts_same (evs : list event) (req : request) (m p : string) (t k : number) :
  payload req = ChatBody m p t k ->
  (forall r, In (EvFetch r) evs -> r = req) ->
  Forall (eq p) (prompts evs).
Proof.
  intros Hreq. induction evs as [|ev evs IH]; intros H; [constructor|].
  cbn [prompts flat_map]. fold (prompts evs).
  apply Forall_app. split; [|apply IH; intros r Hr; apply H; now right].
  destruct ev as [r| | | |]; try constructor.
  rewrite (H r (or_introl eq_refl)), Hreq. now repeat constructor.
Qed.

Lemma deliver_prompts (w : world) (text : string) (n : nat) :
  prompts (events (deliver w text n)) = [].
Proof.
  destruct (USE_WEBHOOK w) eqn:H.
  - rewrite deliver_webhook by exact H. cbv zeta. now destruct (http w n _).
  - rewrite deliver_bot by exact H. cbv zeta.
    destruct (channels w _) as [|[c|]]; try reflexivity.
    destruct (ctype c =? GuildText)%N; [|reflexivity].
    now destruct (accepts c _).
Qed.

(** X13. What the context fetch returns is what the generation is asked
    with: every chat request of a run carries the prompt built from the
    lines [fetchClickUpContext] gave, and there is at least one such
    request. *)
Theorem run_prompts (w : world) :
  exists ctx : list string,
    value (fetchClickUpContext w 0) = Ok ctx
    /\ prompts (snd (run (postDailyQuote w))) <> []
    /\ Forall (eq (buildPrompt ctx)) (prompts (snd (run (postDailyQuote w)))).
Proof.
  destruct (postDailyQuote_run w) as (ctx & q & Hc & _ & _ & ->).
  exists ctx. split; [exact Hc|]. cbn [snd].
  rewrite !prompts_app, deliver_prompts, List.app_nil_r.
  rewrite (prompts_none (events (fetchClickUpContext w 0))).
  2:{ apply (fetchClickUpContext_only
               (fun ev => match ev with
                          | EvFetch r => forall m p t k, payload r <> ChatBody m p t k
                          | _ => True
                          end)); [easy|]. intros token team m p t k. discriminate. }
  cbn [app]. split.
  - destruct (generateQuote_asks w ctx (snd (fetchClickUpContext w 0)))
      as ([rest ->] & _). discriminate.
  - unfold generateQuote.
    apply (prompts_same _ (gen_request w (buildPrompt ctx))
             (model w) (buildPrompt ctx) (temperature w) (maxTokens w) eq_refl).
    apply (guarded_fetches w (buildPrompt ctx) 3 0 (JStr "")).
Qed.

Lemma webhook_run_ends (w : world) :
  USE_WEBHOOK w = true -> fst (run (postDailyQuote w)) = Ok tt.
Proof.
  intros H. destruct (run_split w) as (q & n & pre & _ & _ & ->). cbn [fst].
  rewrite deliver_webhook by exact H. cbv zeta. now destruct (http w n _).
Qed.

(** X14. [postDailyQuote] lets an exception out in two cases only, both in
    bot-client mode: the resolution of the channel is rejected, or the send
    to a guild text channel is.  In webhook mode, and when the channel is
    missing or of another type, it always ends normally. *)
Theorem run_ending (w : world) :
  exists q : option string,
    generated w = Ok q
    /\ fst (run (postDailyQuote w))
       = if USE_WEBHOOK w then Ok tt
         else match channels w (DISCORD_CHANNEL_ID w) with
              | FetchRejects => Throw DiscordAPIError
              | FetchResolves None => Ok tt
              | FetchResolves (Some c) =>
                  if (ctype c =? GuildText)%N
                     && negb (accepts c (header ++ LF ++ quote_text (LANGUAGE w) q))
                  then Throw DiscordAPIError
                  else Ok tt
              end.
Proof.
  destruct (run_split w) as (q & n & pre & Hq & _ & ->).
  exists q. split; [exact Hq|]. cbn [fst].
  destruct (USE_WEBHOOK w) eqn:H.
  - rewrite deliver_webhook by exact H. cbv zeta. now destruct (http w n _).
  - rewrite deliver_bot by exact H. cbv zeta.
    destruct (channels w _) as [|[c|]]; try reflexivity.
    destruct (ctype c =? GuildText)%N; [|reflexivity].
    unfold payloadText. now destruct (accepts c _).
Qed.

(** X15. In bot-client mode, with the id resolved to a guild text channel,
    the run resolves that one id, sends one message, the header, a line
    feed and the text, and reports it sent; nothing else goes to Discord
    and no webhook is called.  When the send is rejected the run ends there
    with the exception, and the line that reports it sent is not
    printed. *)
Theorem bot_delivery (w : world) (c : channel) :
  USE_WEBHOOK w = false ->
  channels w (DISCORD_CHANNEL_ID w) = FetchResolves (Some c) ->
  ctype c = GuildText ->
  exists (q : option string) (pre : list event),
    let message := header ++ LF ++ quote_text (LANGUAGE w) q in
    let tail :=
      [EvChannelFetch (DISCORD_CHANNEL_ID w); EvSend message] in
    generated w = Ok q
    /\ Forall (background w) pre
    /\ run (postDailyQuote w)
       = (if accepts c message
          then (Ok tt, (pre ++ tail ++ [EvConsole Info [AStr "Sent daily quote."]])%list)
          else (Throw DiscordAPIError, (pre ++ tail)%list))
    /\ delivered (snd (run (postDailyQuote w))) = [message].
Proof.
  intros Hw Hc Hty. destruct (run_split w) as (q & n & pre & Hq & Hpre & Hrun).
  exists q, pre. cbv zeta in *. split; [exact Hq|]. split; [exact Hpre|].
  rewrite Hrun. rewrite deliver_bot by exact Hw. cbv zeta. rewrite Hc, Hty.
  cbn [N.eqb GuildText]. unfold payloadText.
  destruct (accepts c _); cbn [value events fst snd]; (split; [reflexivity|]);
    rewrite delivered_app, (background_delivered w pre Hpre); reflexivity.
Qed.

Lemma bot_delivery_witness :
  delivered
    (snd (run (postDailyQuote
                 (resolving (setenv "DISCORD_CHANNEL_ID" "123" unset)
                            [completion "Ship it."] (Some open_channel)))))
  = [header ++ LF ++ "Ship it."].
Proof.
  destruct (bot_delivery
              (resolving (setenv "DISCORD_CHANNEL_ID" "123" unset)
                         [completion "Ship it."] (Some open_channel))
              open_channel eq_refl eq_refl eq_refl)
    as (q & pre & Hq & _ & _ & ->).
  cbv zeta in Hq. vm_compute in Hq. injection Hq as <-. reflexivity.
Defined.

(** *** The start of the process *)

Lemma schedulings_app (a b : list step) :
  schedulings (a ++ b) = (schedulings a ++ schedulings b)%list.
Proof. apply filter_app. Qed.

Lemma schedulings_did (evs : list event) : schedulings (map Did evs) = [].
Proof. induction evs as [|ev evs IH]; [reflexivity | exact IH]. Qed.

Lemma pipeline_steps_app (a b : list step) :
  pipeline_steps (a ++ b) = (pipeline_steps a ++ pipeline_steps b)%list.
Proof. apply filter_app. Qed.

Lemma pipeline_steps_did (evs : list event) :
  pipeline_steps (map Did evs) = map Did (io evs).
Proof.
  induction evs as [|ev evs IH]; [reflexivity|].
  cbn [map pipeline_steps filter io]. fold (pipeline_steps (map Did evs)) (io evs).
  rewrite IH. now destruct ev.
Qed.

Lemma immediate_steps (h : host) (after : string) :
  schedulings (snd (immediate h after)) = []
  /\ pipeline_steps (snd (immediate h after))
     = map Did (io (snd (run (postDailyQuote (sys h))))).
Proof.
  unfold immediate. destruct (run (postDailyQuote (sys h))) as [[u|e] evs]; cbn [snd].
  - rewrite schedulings_app, pipeline_steps_app, schedulings_did, pipeline_steps_did.
    cbn. now rewrite List.app_nil_r.
  - now rewrite schedulings_did, pipeline_steps_did.
Qed.

(** X16. Over the whole start the job is registered exactly once, in either
    mode: at the top level in webhook mode, in the ready handler otherwise,
    with the configured expression and zone or else 0 9 * * * and
    Asia/Yangon.  In webhook mode no client is created and nobody logs in.
    When [cron.schedule] throws, nothing is registered and no run is made
    either. *)
Theorem scheduled_once (h : host) :
  let w := sys h in
  let expr := nullish (env w "DAILY_CRON") "0 9 * * *" in
  let zone := nullish (env w "TIMEZONE") "Asia/Yangon" in
  (cron_takes h expr zone = true ->
   schedulings (session h) = [Scheduled expr zone])
  /\ (cron_takes h expr zone = false ->
      schedulings (session h) = [] /\ pipeline_steps (session h) = [])
  /\ (USE_WEBHOOK w = true ->
      ~ In NewClient (session h) /\ forall t, ~ In (LoggedIn t) (session h)).
Proof.
  cbv zeta. unfold session, boot, ready, schedule. cbv zeta.
  fold (DAILY_CRON (sys h)) (TIMEZONE (sys h)).
  destruct (immediate_steps h "Test quote sent via webhook.") as [Hs1 Hp1].
  destruct (immediate_steps h "Test quote send attempted.") as [Hs2 Hp2].
  split; [|split].
  - intros Hcron. rewrite Hcron.
    destruct (USE_WEBHOOK (sys h)), (SEND_NOW (sys h)); try reflexivity.
    + destruct (immediate h "Test quote sent via webhook.") as [e steps].
      cbn [snd] in *. rewrite List.app_nil_r. cbn. fold (schedulings steps).
      now rewrite Hs1.
    + destruct (immediate h "Test quote send attempted.") as [e steps].
      cbn [snd] in *. cbn. fold (schedulings steps). now rewrite Hs2.
  - intros Hcron. rewrite Hcron. now destruct (USE_WEBHOOK (sys h)).
  - intros Hw. rewrite Hw, List.app_nil_r.
    assert (forall evs x, (forall ev, x <> Did ev) -> ~ In x (map Did evs)) as Hdid.
    { intros evs x Hx Hin. apply in_map_iff in Hin as (ev & E & _).
      now elim (Hx ev). }
    assert (forall x after,
              (forall ev, x <> Did ev) -> ~ In x (snd (immediate h after))) as Him.
    { intros x after Hx. unfold immediate.
      destruct (run (postDailyQuote (sys h))) as [[u|e] evs]; cbn [snd].
      - intros Hin. apply in_app_or in Hin as [Hin|[Hin|[]]].
        + now apply (Hdid evs x Hx).
        + now elim (Hx (EvConsole Info [AStr after])).
      - now apply Hdid. }
    destruct (cron_takes h _ _).
    + destruct (SEND_NOW (sys h)).
      * specialize (Him NewClient "Test quote sent via webhook.") as H1.
        pose proof (fun t => Him (LoggedIn t) "Test quote sent via webhook.") as H2.
        destruct (immediate h "Test quote sent via webhook.") as [e steps].
        cbn [snd] in *. split.
        -- intros [H|[H|H]]; try discriminate H. apply H1; [discriminate | exact H].
        -- intros t [H|[H|H]]; try discriminate H.
           apply (H2 t); [discriminate | exact H].
      * cbn. split; [|intros t]; intros [H|[H|[]]]; discriminate H.
    + cbn. split; [|intros t]; intros [H|[]]; discriminate H.
Qed.

Lemma SEND_NOW_spec (w : world) : SEND_NOW w = true <-> env w "SEND_NOW" = Some "1".
Proof.
  unfold SEND_NOW. destruct (env w "SEND_NOW") as [s|]; [|split; discriminate].
  destruct (String.eqb_spec s "1") as [->|Hne]; split; try easy.
  intros [= E]. now elim Hne.
Qed.

(** X17. The start runs the pipeline once when SEND_NOW is the string 1 and
    the job could be registered, and not at all otherwise: any other value
    of SEND_NOW (true, yes, 1 with a blank) leaves the first quote to the
    schedule. *)
Theorem immediate_run_only_on_1 (h : host) :
  let w := sys h in
  (env w "SEND_NOW" <> Some "1" -> pipeline_steps (session h) = [])
  /\ (env w "SEND_NOW" = Some "1" ->
      cron_takes h (DAILY_CRON w) (TIMEZONE w) = true ->
      pipeline_steps (session h) = map Did (io (snd (run (postDailyQuote w))))).
Proof.
  cbv zeta. unfold session, boot, ready, schedule. cbv zeta.
  destruct (immediate_steps h "Test quote sent via webhook.") as [_ Hp1].
  destruct (immediate_steps h "Test quote send attempted.") as [_ Hp2].
  split.
  - intros Hoff.
    assert (SEND_NOW (sys h) = false) as ->.
    { destruct (SEND_NOW (sys h)) eqn:E; [|reflexivity].
      apply SEND_NOW_spec in E. contradiction. }
    destruct (USE_WEBHOOK (sys h)), (cron_takes h _ _); reflexivity.
  - intros Hon Hcron. apply SEND_NOW_spec in Hon. rewrite Hon, Hcron.
    destruct (USE_WEBHOOK (sys h)).
    + destruct (immediate h "Test quote sent via webhook.") as [e steps].
      cbn [snd] in *. rewrite List.app_nil_r. cbn. fold (pipeline_steps steps).
      exact Hp1.
    + destruct (immediate h "Test quote send attempted.") as [e steps].
      cbn [snd] in *. cbn. fold (pipeline_steps steps). exact Hp2.
Qed.

Lemma immediate_run_only_on_1_witness :
  pipeline_steps
    (session (hosting (offline (setenv "SEND_NOW" "true"
                                  (setenv "DISCORD_WEBHOOK_URL" hook unset)))))
  = [].
Proof.
  apply (immediate_run_only_on_1
           (hosting (offline (setenv "SEND_NOW" "true"
                                (setenv "DISCORD_WEBHOOK_URL" hook unset))))).
  discriminate.
Defined.

(** X18. In webhook mode, once the job could be registered, the immediate
    run always ends with the line that reports the test quote sent, also
    when the webhook request failed: the failure was caught inside
    [postDailyQuote], so the top level cannot tell. *)
Theorem webhook_test_always_reported (h : host) :
  let w := sys h in
  USE_WEBHOOK w = true ->
  SEND_NOW w = true ->
  cron_takes h (DAILY_CRON w) (TIMEZONE w) = true ->
  fst (boot h) = Finished
  /\ snd (boot h)
     = (say "Running in Webhook mode (no Discord client)."
        :: Scheduled (DAILY_CRON w) (TIMEZONE w)
        :: map Did (snd (run (postDailyQuote w)))
        ++ [say "Test quote sent via webhook."])%list.
Proof.
  cbv zeta. intros Hw Hnow Hcron. unfold boot, schedule. cbv zeta.
  rewrite Hw, Hcron, Hnow. unfold immediate.
  pose proof (webhook_run_ends (sys h) Hw) as Hend.
  destruct (run (postDailyQuote (sys h))) as [r evs]. cbn [fst] in Hend.
  subst r. now cbn.
Qed.

Lemma webhook_test_always_reported_witness :
  let h := hosting (offline (setenv "SEND_NOW" "1"
                               (setenv "DISCORD_WEBHOOK_URL" hook unset))) in
  In (Did (EvConsole Error [AStr "Webhook send failed:"; AExn FetchFailed]))
     (snd (boot h))
  /\ In (say "Test quote sent via webhook.") (snd (boot h)).
Proof.
  cbv zeta.
  destruct (webhook_test_always_reported
              (hosting (offline (setenv "SEND_NOW" "1"
                                   (setenv "DISCORD_WEBHOOK_URL" hook unset))))
              eq_refl eq_refl eq_refl) as [_ ->].
  split; vm_compute; tauto.
Defined.

(** X19. In bot-client mode, when the job can be registered, the ready
    handler greets, sets the presence and registers the job; of an
    immediate run it reports the attempt whenever [postDailyQuote] ended
    normally, also when the channel was missing or of the wrong type and
    nothing was sent; when the channel resolution is rejected the exception
    is left unhandled and no report is printed. *)
Theorem ready_test_run (h : host) :
  let w := sys h in
  let hello :=
    [ say ("Logged in as " ++ user_tag h ++ " (" ++ user_id h ++ ")");
      Presence "Daily Dev Quotes" "online";
      say ("Status: online, ping=" ++ ping h ++ "ms");
      Did (EvConsole Info
             [AStr "Guilds:";
              AStr (join ", " (map (fun g => fst g ++ " (" ++ snd g ++ ")") (guilds h)))]);
      Scheduled (DAILY_CRON w) (TIMEZONE w) ] in
  let evs := snd (run (postDailyQuote w)) in
  USE_WEBHOOK w = false ->
  SEND_NOW w = true ->
  cron_takes h (DAILY_CRON w) (TIMEZONE w) = true ->
  (channels w (DISCORD_CHANNEL_ID w) = FetchRejects ->
   ready h = (Unhandled DiscordAPIError, (hello ++ map Did evs)%list))
  /\ (forall c,
        channels w (DISCORD_CHANNEL_ID w) = FetchResolves c ->
        match c with
        | Some ch => ctype ch <> GuildText
        | None => True
        end ->
        ready h
        = (Finished, (hello ++ map Did evs ++ [say "Test quote send attempted."])%list)
        /\ delivered evs = []).
Proof.
  cbv zeta. intros Hw Hnow Hcron. unfold ready, schedule. cbv zeta.
  rewrite Hcron, Hnow. unfold immediate.
  destruct (run_split (sys h)) as (q & n & pre & _ & Hpre & Hrun).
  cbv zeta in Hrun. split.
  - intros Hc. rewrite Hrun, deliver_bot by exact Hw. cbv zeta. now rewrite Hc.
  - intros c Hc Hty.
    rewrite (wrong_channel_aborts (sys h) _ n c Hw Hc Hty) in Hrun.
    rewrite Hrun. cbn [value events fst snd]. split; [reflexivity|].
    now rewrite delivered_app, (background_delivered (sys h) pre Hpre).
Qed.

Lemma ready_test_run_witness :
  fst (ready (hosting (offline (setenv "SEND_NOW" "1"
                                  (setenv "DISCORD_CHANNEL_ID" "123" unset)))))
  = Unhandled DiscordAPIError.
Proof.
  destruct (ready_test_run
              (hosting (offline (setenv "SEND_NOW" "1"
                                   (setenv "DISCORD_CHANNEL_ID" "123" unset))))
              eq_refl eq_refl eq_refl) as [H _].
  cbv zeta in H. now rewrite (H eq_refl).
Defined.

(** *** Where a quote comes from *)

Lemma guarded_quote (w : world) (prompt : string) (left : nat) :
  forall (attempt : N) (lastErr : json) (n : nat) (s : string),
    value (try_catch (attempts w prompt left attempt lastErr) on_error n) = Ok (Some s) ->
    exists i res raw,
      i < left
      /\ (forall j, j < i -> limited (http w (j + n) (gen_request w prompt)) = true)
      /\ http w (i + n) (gen_request w prompt) = Resolves res
      /\ ok res = true
      /\ raw_content (data_of res) = JStr raw
      /\ s = sanitize raw.
Proof.
  induction left as [|left IH]; intros attempt lastErr n s.
  - rewrite guarded_exhausted. discriminate.
  - rewrite guarded_unfold. cbv zeta.
    destruct (http w n (gen_request w prompt)) as [|res] eqn:E; [discriminate|].
    destruct (ok res) eqn:K.
    + destruct (raw_content (data_of res)) as [| | |raw| |] eqn:R; try discriminate.
      cbn [value fst]. intros [= <-]. exists 0, res, raw.
      repeat split; [lia | intros j Hj; lia | exact E | exact K | exact R].
    + destruct (status res =? 429)%N eqn:L; [|discriminate].
      cbn [value fst]. intros H.
      destruct (IH _ _ (S n) s H) as (i & res' & raw & Hi & Hbefore & E' & K' & R' & Hs).
      exists (S i), res', raw.
      replace (S i + n) with (i + S n) by lia.
      repeat split; try assumption; [lia|].
      intros [|j] Hj; [cbn [Nat.add]; now rewrite E|].
      replace (S j + n) with (j + S n) by lia. apply Hbefore. lia.
Qed.

(** X20. A quote is never taken from a failure: when [generateQuote] hands
    back a string, one of its at most three answers had a success status
    and a text content, every answer before it was a 429, and the string
    is that content cleaned; it has no white space at either end. *)
Theorem quote_only_from_success (w : world) (ctx : list string) (n : nat) (s : string) :
  value (generateQuote w ctx n) = Ok (Some s) ->
  (exists i res raw,
     i < 3
     /\ (forall j, j < i -> limited (answer w ctx n j) = true)
     /\ answer w ctx n i = Resolves res
     /\ ok res = true
     /\ raw_content (data_of res) = JStr raw
     /\ s = sanitize raw)
  /\ ws_len s = 0 /\ ws_len_rev (rev s) = 0.
Proof.
  unfold generateQuote, answer. intros H.
  destruct (guarded_quote w (buildPrompt ctx) 3 0 (JStr "") n s H)
    as (i & res & raw & Hi & Hbefore & E & K & R & Hs).
  split; [now exists i, res, raw|].
  rewrite Hs. unfold sanitize.
  destruct (trim_spec (fold_left (fun cleaned t => remove t cleaned) tokens raw))
    as (_ & _ & _ & _ & _ & H1 & H2).
  split; assumption.
Qed.

Lemma quote_only_from_success_witness :
  ws_len "Ship it." = 0.
Proof.
  apply (quote_only_from_success
           (scripted unset [too_many; completion "  Ship it. "]) [] 0 "Ship it.").
  reflexivity.
Defined.

(** *** The shape of a context line *)

Lemma line_of_shape (t : json) (l : string) :
  line_of t = Some l ->
  exists a b, l = "Task " ++ DQ ++ a ++ DQ ++ " — status: " ++ b.
Proof.
  unfold line_of.
  destruct t; try discriminate;
    (destruct (to_string (or_else (prop "name" _) _)) as [ta|]; [|discriminate];
     destruct (to_string (or_else (opt_prop "status" _) _)) as [tb|]; [|discriminate];
     intros [= <-]; now exists ta, tb).
Qed.

Lemma all_some_forall {A : Type} (P : A -> Prop) (xs : list (option A)) (ys : list A) :
  (forall x, In (Some x) xs -> P x) -> all_some xs = Some ys -> Forall P ys.
Proof.
  revert ys. induction xs as [|[x|] xs IH]; intros ys H; cbn [all_some].
  - intros [= <-]. constructor.
  - destruct (all_some xs) as [zs|] eqn:E; [|discriminate].
    intros [= <-]. constructor; [apply H; now left|].
    apply IH; [|reflexivity]. intros y Hy. apply H. now right.
  - discriminate.
Qed.

(** X21. Whatever the tracker sends, every line [fetchClickUpContext] hands
    back is made of the word Task, a text between double quotes, the words
    " — status: " and a text: it opens with the word Task and a double
    quote.  Nothing is said of the two texts, which are the task's own. *)
Theorem context_lines_shape (w : world) (n : nat) (lines : list string) :
  value (fetchClickUpContext w n) = Ok lines ->
  Forall (fun l => (exists a b, l = "Task " ++ DQ ++ a ++ DQ ++ " — status: " ++ b)
                   /\ String.prefix ("Task " ++ DQ) l = true) lines.
Proof.
  set (shape := fun l : string =>
                  (exists a b, l = "Task " ++ DQ ++ a ++ DQ ++ " — status: " ++ b)
                  /\ String.prefix ("Task " ++ DQ) l = true).
  destruct (str_truthy (env w "CLICKUP_TOKEN")) eqn:Ht.
  2:{ rewrite (fetchClickUpContext_unconfigured w n (or_introl Ht)).
      intros [= <-]. constructor. }
  destruct (str_truthy (env w "CLICKUP_TEAM_ID")) eqn:Hi.
  2:{ rewrite (fetchClickUpContext_unconfigured w n (or_intror Hi)).
      intros [= <-]. constructor. }
  apply str_truthy_inv in Ht as (token & Ht & Ht').
  apply str_truthy_inv in Hi as (team & Hi & Hi').
  rewrite (fetchClickUpContext_run w token team n Ht Ht' Hi Hi'). cbv zeta.
  assert (forall items ls,
            all_some (map line_of (firstn 5 items)) = Some ls ->
            Forall shape ls) as Hshape.
  { intros items ls. apply all_some_forall. intros l Hl.
    apply in_map_iff in Hl as (t & Hl & _).
    destruct (line_of_shape t l Hl) as (a & b & ->).
    split; [now exists a, b|].
    change (String.prefix ("Task " ++ DQ)
              (("Task " ++ DQ) ++ (a ++ DQ ++ " — status: " ++ b)) = true).
    apply prefix_refl_app. }
  assert (forall (r : unit) evs k, @value (list string) (Ok [], evs, k) = Ok lines ->
            Forall shape lines) as Hnil.
  { intros _ evs k [= <-]. constructor. }
  destruct (http w n _) as [|res]; [apply (Hnil tt)|].
  destruct (parsed res) as [data|]; [|apply (Hnil tt)].
  destruct data; try apply (Hnil tt);
    (destruct (or_else _ _) as [| | | |items|]; try apply (Hnil tt);
     destruct (all_some _) as [ls|] eqn:E; [|apply (Hnil tt)];
     cbn [value fst]; intros [= <-]; now apply (Hshape items)).
Qed.

Lemma context_lines_shape_witness :
  Forall (fun l => (exists a b, l = "Task " ++ DQ ++ a ++ DQ ++ " — status: " ++ b)
                   /\ String.prefix ("Task " ++ DQ) l = true)
         ["Task " ++ DQ ++ "Ship v2" ++ DQ ++ " — status: open"].
Proof.
  apply (context_lines_shape
           (answering (with_clickup unset)
              {| status := 200;
                 parsed := Some (JObj [("tasks",
                                        JArr [JObj [("name", JStr "Ship v2");
                                                    ("status", JObj [("status", JStr "open")])]])]) |})
           0).
  reflexivity.
Defined.
